(** * api_go_postgresql: the HTTP handlers of [main.go]

    A shallow embedding of the request handlers of [main.go] (the router
    functions [handleRoot] and [handleUsers], and the two user handlers
    [createUser] and [getUser]) together with the library functions they
    call ([strings.TrimSpace], [strings.HasPrefix], [strings.TrimPrefix],
    [strings.Split], [strconv.Atoi]) and the routes that [main]
    registers.

    Go strings are byte sequences; they are modelled by [string], whose
    characters are the 256 values of [ascii].  A handler is a finite
    tree of database calls that ends in the response it writes, so that
    what a handler sends to the database, and what it makes of every
    possible answer, can be read off the tree.  The JSON decoder of the
    request body is a parameter of the handlers.  The users table is kept
    by PostgreSQL; module [pg] holds a model of it, against which the
    handlers can be run. *)

From Stdlib Require Import ZArith NArith String Ascii List Bool Lia.
From stdpp Require Import gmap strings.

Import ListNotations.
Local Open Scope string_scope.
Local Open Scope Z_scope.

(** ** Package [strings] *)

Module strings.

(** [strings.HasPrefix(s, prefix)]. *)
Definition HasPrefix (s prefix : string) : bool := String.prefix prefix s.

(** [s[n:]] for [n <= len(s)]. *)
Fixpoint drop_bytes (n : nat) (s : string) : string :=
  match n, s with
  | O, _ => s
  | S k, String _ t => drop_bytes k t
  | S _, EmptyString => EmptyString
  end.

(** [strings.TrimPrefix(s, prefix)]: [s] without the leading [prefix], or
    [s] itself when it does not start with [prefix]. *)
Definition TrimPrefix (s prefix : string) : string :=
  if HasPrefix s prefix then drop_bytes (String.length prefix) s else s.

(** [strings.Split(s, sep)] for a non-empty separator: the pieces of [s]
    between the occurrences of [sep], scanned from the left without
    overlap.  [skip] counts the bytes of a separator that has just been
    recognised and still has to be stepped over; [cur] is the piece being
    collected.  The result always has at least one element. *)
Fixpoint Split_from (sep : string) (skip : nat) (cur : string) (s : string)
  : list string :=
  match s with
  | EmptyString => [cur]
  | String c t =>
      match skip with
      | S k => Split_from sep k cur t
      | O =>
          if HasPrefix s sep
          then cur :: Split_from sep (String.length sep - 1) EmptyString t
          else Split_from sep O (cur +:+ String c EmptyString) t
      end
  end.

(** With the empty separator Go cuts after every UTF-8 sequence; the
    handlers never do that, and the model cuts after every byte. *)
Definition Split (s sep : string) : list string :=
  match sep with
  | EmptyString => map (fun c => String c EmptyString) (list_ascii_of_string s)
  | _ => Split_from sep O EmptyString s
  end.

(** The six ASCII white-space bytes of [asciiSpace]: tab, line feed,
    vertical tab, form feed, carriage return and space. *)
Definition asciiSpace : list N := [9; 10; 11; 12; 13; 32]%N.

(** The code points above U+007F for which [unicode.IsSpace] holds, each
    as its UTF-8 encoding: U+0085, U+00A0, U+1680, U+2000 to U+200A,
    U+2028, U+2029, U+202F, U+205F and U+3000. *)
Definition unicodeSpace : list (list N) :=
  [ [0xC2; 0x85]; [0xC2; 0xA0]; [0xE1; 0x9A; 0x80];
    [0xE2; 0x80; 0x80]; [0xE2; 0x80; 0x81]; [0xE2; 0x80; 0x82];
    [0xE2; 0x80; 0x83]; [0xE2; 0x80; 0x84]; [0xE2; 0x80; 0x85];
    [0xE2; 0x80; 0x86]; [0xE2; 0x80; 0x87]; [0xE2; 0x80; 0x88];
    [0xE2; 0x80; 0x89]; [0xE2; 0x80; 0x8A]; [0xE2; 0x80; 0xA8];
    [0xE2; 0x80; 0xA9]; [0xE2; 0x80; 0xAF]; [0xE2; 0x81; 0x9F];
    [0xE3; 0x80; 0x80] ]%N.

Definition bytes (bs : list N) : string :=
  string_of_list_ascii (map ascii_of_N bs).

(** Every white-space rune as the byte string that encodes it. *)
Definition spaceRunes : list string :=
  map (fun b => bytes [b]) asciiSpace ++ map bytes unicodeSpace.

Definition reverse (s : string) : string :=
  string_of_list_ascii (rev (list_ascii_of_string s)).

(** Width in bytes of the rune of [table] that [s] starts with, [O] when
    it starts with none. *)
Fixpoint runeWidth (table : list string) (s : string) : nat :=
  match table with
  | [] => O
  | w :: rest => if HasPrefix s w then String.length w else runeWidth rest s
  end.

(** Drop leading runes of [table] from [s]. *)
Fixpoint trimRunes (table : list string) (skip : nat) (s : string) : string :=
  match s with
  | EmptyString => EmptyString
  | String _ t =>
      match skip with
      | S k => trimRunes table k t
      | O =>
          match runeWidth table s with
          | O => s
          | S k => trimRunes table k t
          end
      end
  end.

(** [strings.TrimLeftFunc(s, unicode.IsSpace)]. *)
Definition TrimLeftSpace (s : string) : string := trimRunes spaceRunes O s.

(** [strings.TrimRightFunc(s, unicode.IsSpace)]: the same scan from the
    end of the string, over the reversed encodings. *)
Definition TrimRightSpace (s : string) : string :=
  reverse (trimRunes (map reverse spaceRunes) O (reverse s)).

(** [strings.TrimSpace(s)]: [s] without leading and trailing white space,
    as defined by Unicode. *)
Definition TrimSpace (s : string) : string := TrimRightSpace (TrimLeftSpace s).

End strings.

(** ** Package [strconv] *)

Module strconv.

(** The two causes a [*strconv.NumError] can carry. *)
Inductive NumError := ErrSyntax | ErrRange.

Definition maxUint64 : Z := 2 ^ 64 - 1.

(** The digit loop of [ParseUint(s, 10, 64)]: [n] is the value read so
    far.  A byte that is not a decimal digit is a syntax error; a value
    that leaves the range of [uint64] is a range error, reported at the
    digit where it happens. *)
Fixpoint ParseUint_loop (s : string) (n : Z) : Z + NumError :=
  match s with
  | EmptyString => inl n
  | String c t =>
      let v := Z.of_N (N_of_ascii c) in
      if (48 <=? v) && (v <=? 57) then
        if n >=? maxUint64 / 10 + 1 then inr ErrRange
        else
          let n1 := n * 10 + (v - 48) in
          if n1 >? maxUint64 then inr ErrRange else ParseUint_loop t n1
      else inr ErrSyntax
  end.

Definition ParseUint (s : string) : Z + NumError :=
  match s with
  | EmptyString => inr ErrSyntax
  | _ => ParseUint_loop s 0
  end.

(** [ParseInt(s, 10, 0)] on a platform whose [int] has 64 bits: an
    optional sign, then [ParseUint], then the range check of [int64]. *)
Definition ParseInt (s : string) : Z + NumError :=
  match s with
  | EmptyString => inr ErrSyntax
  | String c t =>
      let neg := Ascii.eqb c "-" in
      let digits := if Ascii.eqb c "+" || neg then t else s in
      match ParseUint digits with
      | inr ErrSyntax => inr ErrSyntax
      | inr ErrRange => inr ErrRange
      | inl un =>
          let cutoff := 2 ^ 63 in
          if negb neg && (un >=? cutoff) then inr ErrRange
          else if neg && (un >? cutoff) then inr ErrRange
          else inl (if neg then - un else un)
      end
  end.

(** [strconv.Atoi(s)].  Its fast path for short inputs computes the same
    result as [ParseInt]. *)
Definition Atoi (s : string) : Z + NumError := ParseInt s.

(** The decimal digits of [u], most significant first, put in front of
    [acc]; this is the base-10 loop of [formatBits], which fills its
    buffer from the end.  A [uint64] has twenty digits at most, and [fuel]
    bounds their number. *)
Fixpoint formatBits (fuel : nat) (u : Z) (acc : string) : string :=
  match fuel with
  | O => acc
  | S k =>
      let acc' := String (ascii_of_N (Z.to_N (48 + u mod 10))) acc in
      if u <? 10 then acc' else formatBits k (u / 10) acc'
  end.

(** [strconv.Itoa(i)], the way a client writes an identifier into a
    path. *)
Definition Itoa (i : Z) : string :=
  if i <? 0 then String "-" (formatBits 20 (- i) "") else formatBits 20 i "".

End strconv.

(** ** Package [net/http]: what the handlers use of it *)

Module http.

Definition MethodGet : string := "GET".
Definition MethodPost : string := "POST".

Definition StatusOK : Z := 200.
Definition StatusCreated : Z := 201.
Definition StatusBadRequest : Z := 400.
Definition StatusNotFound : Z := 404.
Definition StatusInternalServerError : Z := 500.

End http.

(** ** Package [context] *)

(** [time.Duration] counts nanoseconds. *)
Definition Second : Z := 1000000000.

(** A context is known by the way it was derived. *)
Inductive Context : Type :=
| Background
| WithCancel (parent : Context)
| WithTimeout (parent : Context) (timeout : Z).

(** ** Requests and responses *)

(** The part of [*http.Request] the handlers read: [r.Method],
    [r.URL.Path], the bytes of [r.Body] and [r.Context()]. *)
Record Request : Type := {
  Method : string;
  Path : string;
  Body : string;
  Ctx : Context
}.

(** The values the handlers put into their JSON objects: strings and the
    [int32] identifier. *)
Inductive JSON : Type :=
| JString (s : string)
| JNumber (n : Z).

(** What a handler passes to [jsonWrite] is a Go map from field names to
    values; the plain-text payload is the one of [http.NotFound]. *)
Inductive Payload : Type :=
| JSONObject (fields : gmap string JSON)
| PlainText (text : string).

(** What has been written to the [http.ResponseWriter] when a handler
    returns. *)
Record Response : Type := {
  Status : Z;
  Header : gmap string string;
  Payload_of : Payload
}.

(** [jsonWrite(w, status, v)]. *)
Definition jsonWrite (status : Z) (v : gmap string JSON) : Response :=
  {| Status := status;
     Header := {[ "Content-Type" := "application/json" ]};
     Payload_of := JSONObject v |}.

(** ** Package [database/sql]: the persistence boundary *)

Module sql.

(** The errors a query can end with.  [ErrNoRows] is the one value the
    handlers compare with; every other error is known by its text. *)
Inductive error : Type :=
| ErrNoRows
| Failure (text : string).

(** [err.Error()]. *)
Definition Error (e : error) : string :=
  match e with
  | ErrNoRows => "sql: no rows in result set"
  | Failure text => text
  end.

(** An argument bound to a placeholder of a statement. *)
Inductive Arg : Type :=
| ArgString (s : string)
| ArgInt (n : Z).

(** The arguments of one [a.DB.QueryRowContext(ctx, query, args...)]. *)
Record Query : Type := {
  ctx : Context;
  query : string;
  args : list Arg
}.

(** A call of [QueryRowContext] followed by [Scan], indexed by what
    [Scan] hands back: the error, or the scanned columns.  [ScanID] is
    [Scan(&id)] with [id int32]; [ScanUser] is
    [Scan(&userID, &username, &email)]. *)
Inductive Call : Type -> Type :=
| ScanID (q : Query) : Call (Z + error)
| ScanUser (q : Query) : Call (Z * string * string + error).

Definition query_of {X : Type} (c : Call X) : Query :=
  match c with
  | ScanID q => q
  | ScanUser q => q
  end.

End sql.

(** A handler run is a finite tree: it either writes its response, or
    issues one call on [a.DB], the database handle of [App], and goes on
    with what the call returns. *)
Inductive Handler (A : Type) : Type :=
| Reply (a : A)
| QueryRow {X : Type} (c : sql.Call X) (k : X -> Handler A).

Arguments Reply {A} a.
Arguments QueryRow {A X} c k.

(** The statements a run issues, in order, when the database answers
    with [answer]. *)
Fixpoint issued {A : Type} (answer : forall X, sql.Call X -> X)
    (h : Handler A) : list sql.Query :=
  match h with
  | Reply _ => []
  | QueryRow c k => sql.query_of c :: issued answer (k (answer _ c))
  end.

(** The response of a run when the database answers with [answer]. *)
Fixpoint response {A : Type} (answer : forall X, sql.Call X -> X)
    (h : Handler A) : A :=
  match h with
  | Reply a => a
  | QueryRow c k => response answer (k (answer _ c))
  end.

(** ** The handlers of [main.go] *)

(** [createUserReq]. *)
Record createUserReq : Type := {
  Username : string;
  Email : string
}.

Definition insertUserSQL : string :=
  "INSERT INTO users (username, email) VALUES ($1, $2) RETURNING user_id".

Definition selectUserSQL : string :=
  "SELECT user_id, username, email FROM users WHERE user_id = $1".

Definition errorBody (text : string) : gmap string JSON :=
  {[ "error" := JString text ]}.

Definition databaseError (err : sql.error) : gmap string JSON :=
  {[ "error" := JString "Database error";
     "detail" := JString (sql.Error err) ]}.

Section Handlers.

(** [json.NewDecoder(r.Body).Decode(&req)] belongs to [encoding/json]:
    it maps the bytes of the body to the decoded request, or to [None]
    when it returns an error. *)
Variable Decode : string -> option createUserReq.

(** [handleRoot], a method of [App]. *)
Definition handleRoot (r : Request) : Handler Response :=
  if negb (String.eqb (Method r) http.MethodGet)
     || negb (String.eqb (Path r) "/")
  then Reply (jsonWrite http.StatusNotFound (errorBody "Not Found"))
  else Reply (jsonWrite http.StatusOK
                {[ "message" := JString "Hello World from Go" ]}).

(** [createUser], a method of [App]. *)
Definition createUser (r : Request) : Handler Response :=
  match Decode (Body r) with
  | None => Reply (jsonWrite http.StatusBadRequest (errorBody "invalid JSON"))
  | Some req =>
      if String.eqb (strings.TrimSpace (Username req)) ""
         || String.eqb (strings.TrimSpace (Email req)) ""
      then Reply (jsonWrite http.StatusBadRequest
                    (errorBody "username and email are required"))
      else
        let ctx := WithTimeout (Ctx r) (60 * Second) in
        QueryRow
          (sql.ScanID
             {| sql.ctx := ctx;
                sql.query := insertUserSQL;
                sql.args := [sql.ArgString (Username req);
                             sql.ArgString (Email req)] |})
          (fun res =>
             match res with
             | inr err =>
                 Reply (jsonWrite http.StatusInternalServerError
                          (databaseError err))
             | inl id =>
                 Reply (jsonWrite http.StatusCreated
                          {[ "message" := JString "User created successfully";
                             "user_id" := JNumber id ]})
             end)
  end.

(** [getUser], a method of [App]. *)
Definition getUser (r : Request) : Handler Response :=
  let parts := strings.Split (strings.TrimPrefix (Path r) "/users/") "/" in
  match parts with
  | [] => Reply (jsonWrite http.StatusBadRequest (errorBody "Invalid user_id"))
  | part0 :: _ =>
      if String.eqb part0 ""
      then Reply (jsonWrite http.StatusBadRequest (errorBody "Invalid user_id"))
      else
        match strconv.Atoi part0 with
        | inr _ =>
            Reply (jsonWrite http.StatusBadRequest (errorBody "Invalid user_id"))
        | inl id =>
            let ctx := WithTimeout (Ctx r) (60 * Second) in
            QueryRow
              (sql.ScanUser
                 {| sql.ctx := ctx;
                    sql.query := selectUserSQL;
                    sql.args := [sql.ArgInt id] |})
              (fun res =>
                 match res with
                 | inr sql.ErrNoRows =>
                     Reply (jsonWrite http.StatusNotFound
                              (errorBody "User not found"))
                 | inr err =>
                     Reply (jsonWrite http.StatusInternalServerError
                              (databaseError err))
                 | inl (userID, username, email) =>
                     Reply (jsonWrite http.StatusOK
                              {[ "user_id" := JNumber userID;
                                 "username" := JString username;
                                 "email" := JString email ]})
                 end)
        end
  end.

(** [handleUsers], a method of [App]. *)
Definition handleUsers (r : Request) : Handler Response :=
  if String.eqb (Method r) http.MethodPost && String.eqb (Path r) "/users"
  then createUser r
  else if String.eqb (Method r) http.MethodGet
          && strings.HasPrefix (Path r) "/users/"
  then getUser r
  else Reply (jsonWrite http.StatusNotFound (errorBody "Not Found")).

(** *** The routes registered in [main] *)

(** [http.NotFound], the reply of a [ServeMux] no pattern of which
    matches. *)
Definition NotFound : Response :=
  {| Status := http.StatusNotFound;
     Header := {[ "Content-Type" := "text/plain; charset=utf-8";
                  "X-Content-Type-Options" := "nosniff" ]};
     Payload_of := PlainText ("404 page not found" +:+ String "010" "") |}.

(** The three [mux.HandleFunc] registrations. *)
Definition routes : list (string * (Request -> Handler Response)) :=
  [ ("/", handleRoot); ("/users", handleUsers); ("/users/", handleUsers) ].

(** A pattern that ends in a slash names a subtree, and [/] names the
    whole tree; any other pattern names one path. *)
Definition matches (pattern path : string) : bool :=
  if String.eqb pattern "/" then true
  else if strings.HasPrefix (strings.reverse pattern) "/"
  then strings.HasPrefix path pattern
  else String.eqb path pattern.

(** The handler of the longest pattern that matches [path]. *)
Fixpoint lookup_route {H : Type} (table : list (string * H)) (path : string)
    (best : option (string * H)) : option (string * H) :=
  match table with
  | [] => best
  | (pattern, h) :: rest =>
      let better :=
        match best with
        | None => true
        | Some (p, _) => (String.length p <? String.length pattern)%nat
        end in
      lookup_route rest path
        (if matches pattern path && better then Some (pattern, h) else best)
  end.

(** [mux.ServeHTTP]: the request goes to the handler registered under
    the longest pattern that matches its path.  The model takes the path
    as the handlers see it, [r.URL.Path]; a path that is not in canonical
    form (a doubled slash, a [.] or [..] segment) the mux answers with a
    redirect before any handler of [main.go] runs, and that step is not
    part of the model. *)
Definition ServeHTTP (r : Request) : Handler Response :=
  match lookup_route routes (Path r) None with
  | Some (_, h) => h r
  | None => Reply NotFound
  end.

End Handlers.

(** ** The users table *)

Module pg.

Definition minInt32 : Z := - 2 ^ 31.
Definition maxInt32 : Z := 2 ^ 31 - 1.

(** Modelled from the spec: the users table and its sequence, which live
    in PostgreSQL and whose schema is not part of [main.go].  The spec
    (sections 3 and 6) describes a table of user records with an
    auto-generated, unique integer primary key and two required text
    columns, on which the service runs one [INSERT ... RETURNING] and one
    [SELECT ... WHERE user_id = $1]; it leaves room for further
    constraints, whose violation is a persistence error.

    [rows] maps a [user_id] to its [username] and [email]; [last_value]
    is the last identifier the sequence has handed out. *)
Record Table : Type := {
  rows : gmap Z (string * string);
  last_value : Z
}.

Section Statements.

(** The constraints of the schema beyond the primary key: [rejects rows
    username email] is the text of the violation, if there is one. *)
Variable rejects : gmap Z (string * string) -> string -> string -> option string.

(** Modelled from the spec: the [INSERT] statement.  The identifier is
    the next value of the sequence; a statement that fails stores no
    row. *)
Definition insert (username email : string) (t : Table)
  : (Z + sql.error) * Table :=
  let id := last_value t + 1 in
  if id >? maxInt32
  then (inr (sql.Failure "nextval: reached maximum value of sequence"), t)
  else
    let t' := {| rows := rows t; last_value := id |} in
    match rejects (rows t) username email with
    | Some text => (inr (sql.Failure text), t')
    | None =>
        match rows t !! id with
        | Some _ =>
            (inr (sql.Failure
                    "duplicate key value violates unique constraint"), t')
        | None =>
            (inl id,
             {| rows := <[ id := (username, email) ]> (rows t);
                last_value := id |})
        end
    end.

(** Modelled from the spec: the [SELECT] statement, by primary key.  The
    handler scans [user_id] into an [int32]. *)
Definition select (id : Z) (t : Table) : Z * string * string + sql.error :=
  match rows t !! id with
  | None => inr sql.ErrNoRows
  | Some (username, email) =>
      if (minInt32 <=? id) && (id <=? maxInt32)
      then inl (id, username, email)
      else inr (sql.Failure "converting to int32: value out of range")
  end.

(** Modelled from the spec: one call against the table.  The model
    answers at once, whatever the context of the call; it knows the two
    statements of the service and fails on any other. *)
Definition exec {X : Type} (c : sql.Call X) (t : Table) : X * Table :=
  match c in sql.Call X return X * Table with
  | sql.ScanID q =>
      if String.eqb (sql.query q) insertUserSQL
      then
        match sql.args q with
        | [sql.ArgString username; sql.ArgString email] =>
            insert username email t
        | _ => (inr (sql.Failure "wrong number or type of arguments"), t)
        end
      else (inr (sql.Failure "unsupported statement"), t)
  | sql.ScanUser q =>
      if String.eqb (sql.query q) selectUserSQL
      then
        match sql.args q with
        | [sql.ArgInt id] => (select id t, t)
        | _ => (inr (sql.Failure "wrong number or type of arguments"), t)
        end
      else (inr (sql.Failure "unsupported statement"), t)
  end.

(** A handler run against the table: its response and the table it
    leaves. *)
Fixpoint run {A : Type} (h : Handler A) (t : Table) : A * Table :=
  match h with
  | Reply a => (a, t)
  | QueryRow c k => let (x, t') := exec c t in run (k x) t'
  end.

End Statements.

End pg.

(** ** The contract in the words of the spec *)

(** The first segment of what follows [/users/] in a path: the bytes up
    to the first slash, or all of them when there is none. *)
Fixpoint segment (s : string) : string :=
  match s with
  | EmptyString => EmptyString
  | String c t =>
      if Ascii.eqb c "/" then EmptyString else String c (segment t)
  end.

(** A string that holds no slash, hence a single segment. *)
Definition NoSlash (s : string) : Prop :=
  ~ In "/"%char (list_ascii_of_string s).

(** After trimming white space nothing is left. *)
Definition blank (s : string) : Prop := strings.TrimSpace s = "".

(** The run of [h] is the reply [status], [body] alone: it issues no
    statement, whatever the database would answer, and leaves every
    table as it is. *)
Definition refuses (h : Handler Response) (status : Z)
    (body : gmap string JSON) : Prop :=
  h = Reply (jsonWrite status body)
  /\ (forall answer, issued answer h = [])
  /\ (forall rejects t, pg.run rejects h t = (jsonWrite status body, t)).

Section Contract.

Variable Decode : string -> option createUserReq.


End Contract.

(** ** Sample data *)

Definition quoted (s : string) : string :=
  String "034" (s +:+ String "034" EmptyString).

(** The body [{"username":...,"email":...}] of a create request. *)
Definition bodyOf (req : createUserReq) : string :=
  "{" +:+ quoted "username" +:+ ":" +:+ quoted (Username req) +:+ ","
      +:+ quoted "email" +:+ ":" +:+ quoted (Email req) +:+ "}".

Definition alice : createUserReq :=
  {| Username := "alice"; Email := "a@x.com" |}.

Definition paddedAlice : createUserReq :=
  {| Username := " alice "; Email := " a@x.com " |}.

Definition nameless : createUserReq :=
  {| Username := ""; Email := "b@x.com" |}.

(** What [encoding/json] makes of the sample bodies; any other body
    stands for one that does not decode. *)
Definition sampleDecode (body : string) : option createUserReq :=
  find (fun req => String.eqb body (bodyOf req)) [alice; paddedAlice; nameless].

Definition POST (path body : string) : Request :=
  {| Method := "POST"; Path := path; Body := body;
     Ctx := WithCancel Background |}.

Definition GET (path : string) : Request :=
  {| Method := "GET"; Path := path; Body := "";
     Ctx := WithCancel Background |}.

(** A request whose username is white space throughout: a tab, a space
    and a no-break space (U+00A0). *)
Definition spaced : createUserReq :=
  {| Username := strings.bytes [9; 32; 0xC2; 0xA0]%N; Email := "a@x.com" |}.



(** A database that has no row for any call. *)
Definition rowless (X : Type) (c : sql.Call X) : X :=
  match c in sql.Call X return X with
  | sql.ScanID _ => inr sql.ErrNoRows
  | sql.ScanUser _ => inr sql.ErrNoRows
  end.

(** A database that hands out the identifier [7] and holds [alice]
    under it. *)
Definition seventh (X : Type) (c : sql.Call X) : X :=
  match c in sql.Call X return X with
  | sql.ScanID _ => inl 7
  | sql.ScanUser _ => inl (7, "alice", "a@x.com")
  end.

(** A schema without further constraints, and the empty table. *)
Definition unconstrained (_ : gmap Z (string * string)) (_ _ : string)
  : option string := None.

Definition emptyTable : pg.Table := {| pg.rows := ∅; pg.last_value := 0 |}.

(** The statement [createUser] issues for the decoded request [req], and
    the one [getUser] issues for the identifier [id], under the context
    [c] of the request. *)
Definition insertQuery (c : Context) (req : createUserReq) : sql.Query :=
  {| sql.ctx := WithTimeout c (60 * Second);
     sql.query := insertUserSQL;
     sql.args := [sql.ArgString (Username req); sql.ArgString (Email req)] |}.

Definition selectQuery (c : Context) (id : Z) : sql.Query :=
  {| sql.ctx := WithTimeout c (60 * Second);
     sql.query := selectUserSQL;
     sql.args := [sql.ArgInt id] |}.

(** A string that is white space throughout: a sequence of white-space
    runes, each in its UTF-8 encoding, and nothing else. *)
Definition whitespace_only (s : string) : Prop :=
  exists runes : list string,
    Forall (fun w => In w strings.spaceRunes) runes
    /\ s = fold_right String.append "" runes.



(** ** The start of the process *)

(** [os.Getenv(key)] in the environment [env], which maps the variables
    that are set to their values: the value of [key], empty when [key] is
    not set. *)
Definition Getenv (env : gmap string string) (key : string) : string :=
  default "" (env !! key).

(** [mustEnv(key, def)]. *)
Definition mustEnv (env : gmap string string) (key def : string) : string :=
  let v := Getenv env key in
  if negb (String.eqb v "") then v else def.

Definition Minute : Z := 60 * Second.

Module startup.

(** The six local variables [main] fills from the environment. *)
Record Settings : Type := {
  host : string;
  user : string;
  pass : string;
  name : string;
  port : string;
  httpPort : string
}.

Definition settings (env : gmap string string) : Settings :=
  {| host := mustEnv env "DB_HOST" "container_postgresql";
     user := mustEnv env "DB_USER" "testuser";
     pass := mustEnv env "DB_PASSWORD" "testpass";
     name := mustEnv env "DB_NAME" "testdb";
     port := mustEnv env "DB_PORT" "5432";
     httpPort := mustEnv env "PORT" "3000" |}.

(** [fmt.Sprintf("postgres://%s:%s@%s:%s/%s?sslmode=disable", user, pass,
    host, port, name)]: the verb [%s] puts a string in as it is. *)
Definition dsn (s : Settings) : string :=
  "postgres://" +:+ user s +:+ ":" +:+ pass s +:+ "@" +:+ host s +:+ ":"
    +:+ port s +:+ "/" +:+ name s +:+ "?sslmode=disable".

(** What [main] does to the world outside, one step per call. *)
Inductive Step : Type :=
| Open (driverName dataSourceName : string)
| SetMaxOpenConns (n : Z)
| SetMaxIdleConns (n : Z)
| SetConnMaxLifetime (d : Z)
| SetConnMaxIdleTime (d : Z)
| PingContext (ctx : Context)
| Printf (text : string)
| Fatalf (text : string)
| ListenAndServe (addr : string) (readHeaderTimeout : Z).

(** The errors [srv.ListenAndServe] can return: [http.ErrServerClosed],
    or any other, known by its text. *)
Inductive ServeError : Type :=
| ErrServerClosed
| ServeFailure (text : string).

(** How the world answers the three calls of [main] that can fail: the
    error each returns, [None] for [nil]; for [sql.Open] and
    [db.PingContext] the error is known by its text. *)
Record Outside : Type := {
  open_db : string -> string -> option string;
  ping : Context -> option string;
  serve : string -> option ServeError
}.

(** [pingWithTimeout(db, d)]: the step it takes and the error it
    returns. *)
Definition pingWithTimeout (w : Outside) (d : Z) : list Step * option string :=
  let ctx := WithTimeout Background d in
  ([PingContext ctx], ping w ctx).

(** [main]: the steps it takes, in order, and the exit status of the
    process ([log.Fatalf] ends it with status 1). *)
Definition main (env : gmap string string) (w : Outside) : list Step * Z :=
  let s := settings env in
  match open_db w "pgx" (dsn s) with
  | Some err => ([Open "pgx" (dsn s); Fatalf ("open db: " +:+ err)], 1)
  | None =>
      let pool := [Open "pgx" (dsn s);
                   SetMaxOpenConns 10; SetMaxIdleConns 10;
                   SetConnMaxLifetime (30 * Minute);
                   SetConnMaxIdleTime (10 * Minute)] in
      let (pinged, err) := pingWithTimeout w (10 * Second) in
      match err with
      | Some err =>
          ((pool ++ pinged ++ [Fatalf ("db ping: " +:+ err)])%list, 1)
      | None =>
          let addr := ":" +:+ httpPort s in
          let started :=
            (pool ++ pinged
               ++ [Printf ("Server listening on :" +:+ httpPort s);
                   ListenAndServe addr (10 * Second)])%list in
          match serve w addr with
          | Some (ServeFailure err) =>
              ((started ++ [Fatalf ("server: " +:+ err)])%list, 1)
          | Some ErrServerClosed => (started, 0)
          | None => (started, 0)
          end
      end
  end.

(** A world in which every call succeeds and the server runs until it is
    closed, and one whose database does not answer the ping. *)
Definition healthy : Outside :=
  {| open_db := fun _ _ => None;
     ping := fun _ => None;
     serve := fun _ => Some ErrServerClosed |}.

Definition unreachable : Outside :=
  {| open_db := fun _ _ => None;
     ping := fun _ => Some "context deadline exceeded";
     serve := fun _ => Some ErrServerClosed |}.

End startup.

(** * Properties *)

(** ** Paths and segments *)

#[local] Arguments String.append !_ _ / : simpl nomatch.

Lemma append_empty_r (s : string) : s +:+ "" = s.
Proof. induction s as [|c s IH]; simpl; [reflexivity | now rewrite IH]. Qed.

Lemma append_snoc (s : string) (c : ascii) (t : string) :
  (s +:+ String c "") +:+ t = s +:+ String c t.
Proof. induction s as [|d s IH]; simpl; [reflexivity | now rewrite IH]. Qed.

Lemma prefix_empty (s : string) : String.prefix "" s = true.
Proof. now destruct s. Qed.

Lemma prefix_cons (a b : ascii) (s t : string) :
  String.prefix (String a s) (String b t) = Ascii.eqb a b && String.prefix s t.
Proof.
  change (String.prefix (String a s) (String b t))
    with (if ascii_dec a b then String.prefix s t else false).
  destruct (ascii_dec a b) as [Heq | Hne].
  - apply Ascii.eqb_eq in Heq. now rewrite Heq.
  - apply Ascii.eqb_neq in Hne. now rewrite Hne.
Qed.

Lemma HasPrefix_slash (c : ascii) (t : string) :
  strings.HasPrefix (String c t) "/" = Ascii.eqb c "/".
Proof.
  unfold strings.HasPrefix.
  now rewrite prefix_cons, prefix_empty, andb_true_r, Ascii.eqb_sym.
Qed.

(** [Split] on a slash starts with the first segment. *)
Lemma Split_from_segment (s cur : string) :
  exists rest, strings.Split_from "/" O cur s = (cur +:+ segment s) :: rest.
Proof.
  revert cur. induction s as [|c t IH]; intros cur.
  - exists []. simpl. now rewrite append_empty_r.
  - cbn [strings.Split_from segment]. rewrite HasPrefix_slash.
    destruct (Ascii.eqb c "/").
    + eexists. now rewrite append_empty_r.
    + destruct (IH (cur +:+ String c "")) as [rest Hrest].
      exists rest. now rewrite Hrest, append_snoc.
Qed.

Lemma Split_segment (s : string) :
  exists rest, strings.Split s "/" = segment s :: rest.
Proof. exact (Split_from_segment s ""). Qed.

Lemma TrimPrefix_users (tail : string) :
  strings.TrimPrefix ("/users/" +:+ tail) "/users/" = tail.
Proof.
  unfold strings.TrimPrefix, strings.HasPrefix. simpl String.append.
  now rewrite !prefix_cons, prefix_empty.
Qed.

Lemma HasPrefix_users (tail : string) :
  strings.HasPrefix ("/users/" +:+ tail) "/users/" = true.
Proof.
  unfold strings.HasPrefix. simpl String.append.
  now rewrite !prefix_cons, prefix_empty.
Qed.

Lemma segment_NoSlash (s : string) : NoSlash s -> segment s = s.
Proof.
  unfold NoSlash. induction s as [|c t IH]; simpl; intros H; [reflexivity|].
  destruct (Ascii.eqb_spec c "/") as [-> | _].
  - exfalso. apply H. now left.
  - f_equal. apply IH. intros Hin. apply H. now right.
Qed.

(** ** Integers in decimal *)

Lemma digit_not_slash (c : ascii) :
  (48 <=? Z.of_N (N_of_ascii c)) && (Z.of_N (N_of_ascii c) <=? 57) = true ->
  Ascii.eqb c "/" = false.
Proof.
  intros H. apply Ascii.eqb_neq. intros ->. discriminate H.
Qed.

Lemma ParseUint_loop_segment (s : string) (n m : Z) :
  strconv.ParseUint_loop s n = inl m -> segment s = s.
Proof.
  revert n. induction s as [|c t IH]; intros n; simpl; [reflexivity|].
  destruct ((48 <=? _) && (_ <=? 57)) eqn:Hd; [|discriminate].
  rewrite (digit_not_slash c Hd).
  destruct (n >=? _); [discriminate|].
  destruct (_ >? _); [discriminate|].
  intros H. f_equal. eapply IH, H.
Qed.

Lemma ParseUint_segment (s : string) (m : Z) :
  strconv.ParseUint s = inl m -> segment s = s /\ s <> "".
Proof.
  destruct s as [|c t]; [discriminate|].
  unfold strconv.ParseUint. intros H. split; [|discriminate].
  eapply ParseUint_loop_segment, H.
Qed.

(** What [Atoi] accepts is one non-empty segment. *)
Lemma Atoi_segment (s : string) (n : Z) :
  strconv.Atoi s = inl n -> segment s = s /\ s <> "".
Proof.
  unfold strconv.Atoi, strconv.ParseInt.
  destruct s as [|c t]; [discriminate|].
  intros H. split; [|discriminate].
  destruct (Ascii.eqb c "+" || Ascii.eqb c "-") eqn:Hsign.
  - destruct (strconv.ParseUint t) as [un|[]] eqn:Hu; try discriminate.
    apply ParseUint_segment in Hu as [Ht _].
    simpl. destruct (Ascii.eqb_spec c "/") as [-> | _]; [discriminate|].
    now rewrite Ht.
  - destruct (strconv.ParseUint (String c t)) as [un|[]] eqn:Hu;
      try discriminate.
    now apply ParseUint_segment in Hu as [Hs _].
Qed.

(** [Atoi] reads back what [Itoa] writes. *)

Lemma digit_code (d : Z) :
  0 <= d < 10 ->
  Z.of_N (N_of_ascii (ascii_of_N (Z.to_N (48 + d)))) = 48 + d.
Proof.
  intros Hd. rewrite N_ascii_embedding; [lia|].
  change 256%N with (Z.to_N 256). apply Z2N.inj_lt; lia.
Qed.

Lemma ParseUint_loop_digit (d n : Z) (s : string) :
  0 <= d < 10 -> 0 <= n ->
  n * 10 + d <= strconv.maxUint64 ->
  strconv.ParseUint_loop
    (String (ascii_of_N (Z.to_N (48 + d))) s) n =
  strconv.ParseUint_loop s (n * 10 + d).
Proof.
  intros Hd Hn Hmax. cbn [strconv.ParseUint_loop].
  rewrite (digit_code d Hd).
  replace (48 + d - 48) with d by lia.
  destruct (Z.leb_spec 48 (48 + d)); [|lia].
  destruct (Z.leb_spec (48 + d) 57); [|lia].
  cbn [andb].
  unfold strconv.maxUint64 in *.
  destruct (Z.geb_spec n ((2 ^ 64 - 1) / 10 + 1)) as [Hcut|_].
  - exfalso. change ((2 ^ 64 - 1) / 10 + 1) with 1844674407370955162 in Hcut.
    change (2 ^ 64 - 1) with 18446744073709551615 in Hmax. lia.
  - destruct (Z.gtb_spec (n * 10 + d) (2 ^ 64 - 1)); [lia | reflexivity].
Qed.

Lemma ParseUint_loop_formatBits (fuel : nat) (u : Z) (acc : string) :
  0 <= u <= strconv.maxUint64 -> u < 10 ^ Z.of_nat fuel ->
  strconv.ParseUint_loop (strconv.formatBits fuel u acc) 0 =
  strconv.ParseUint_loop acc u.
Proof.
  revert u acc. induction fuel as [|k IH]; intros u acc Hu Hlen.
  - cbn [strconv.formatBits]. replace u with 0 by (simpl in Hlen; lia).
    reflexivity.
  - cbn [strconv.formatBits].
    pose proof (Z.mod_pos_bound u 10 ltac:(lia)) as Hmod.
    pose proof (Z.div_mod u 10 ltac:(lia)) as Hdm.
    destruct (Z.ltb_spec u 10) as [Hsmall | Hbig].
    + rewrite ParseUint_loop_digit by (rewrite ?Z.mod_small; lia).
      rewrite Z.mod_small by lia. reflexivity.
    + rewrite IH.
      * rewrite ParseUint_loop_digit by lia.
        f_equal. lia.
      * lia.
      * apply Z.div_lt_upper_bound; [lia|].
        rewrite Nat2Z.inj_succ, Z.pow_succ_r in Hlen; lia.
Qed.

(** [formatBits] writes one digit at least, so its result starts with a
    digit and not with a sign. *)
Lemma formatBits_head (fuel : nat) (u : Z) (acc : string) :
  0 <= u ->
  (exists d t, 0 <= d < 10 /\ acc = String (ascii_of_N (Z.to_N (48 + d))) t) ->
  exists d t, 0 <= d < 10
    /\ strconv.formatBits fuel u acc = String (ascii_of_N (Z.to_N (48 + d))) t.
Proof.
  revert u acc. induction fuel as [|k IH]; intros u acc Hu Hacc.
  - exact Hacc.
  - cbn [strconv.formatBits].
    pose proof (Z.mod_pos_bound u 10 ltac:(lia)) as Hmod.
    destruct (u <? 10).
    + exists (u mod 10), acc. auto.
    + apply IH; [apply Z.div_pos; lia|].
      exists (u mod 10), acc. auto.
Qed.

Lemma formatBits_digits (k : nat) (u : Z) :
  0 <= u ->
  exists d t, 0 <= d < 10
    /\ strconv.formatBits (S k) u "" = String (ascii_of_N (Z.to_N (48 + d))) t.
Proof.
  intros Hu. cbn [strconv.formatBits].
  pose proof (Z.mod_pos_bound u 10 ltac:(lia)) as Hmod.
  destruct (u <? 10).
  - exists (u mod 10), "". auto.
  - apply formatBits_head; [apply Z.div_pos; lia|].
    exists (u mod 10), "". auto.
Qed.

Lemma digit_not_sign (d : Z) :
  0 <= d < 10 ->
  Ascii.eqb (ascii_of_N (Z.to_N (48 + d))) "+"
  || Ascii.eqb (ascii_of_N (Z.to_N (48 + d))) "-" = false.
Proof.
  intros Hd.
  assert (Hcases : d = 0 \/ d = 1 \/ d = 2 \/ d = 3 \/ d = 4 \/ d = 5
                   \/ d = 6 \/ d = 7 \/ d = 8 \/ d = 9) by lia.
  repeat (destruct Hcases as [-> | Hcases]; [reflexivity|]).
  now subst.
Qed.

Lemma ParseUint_formatBits (u : Z) :
  0 <= u <= 2 ^ 63 ->
  strconv.ParseUint (strconv.formatBits 20 u "") = inl u.
Proof.
  intros Hu.
  assert (Hpow : 2 ^ 63 < 10 ^ Z.of_nat 20) by reflexivity.
  assert (Hmax : 2 ^ 63 <= strconv.maxUint64) by discriminate.
  destruct (formatBits_digits 19 u (proj1 Hu)) as (d & t & _ & Hs).
  unfold strconv.ParseUint. rewrite Hs. cbv iota. rewrite <- Hs.
  rewrite ParseUint_loop_formatBits by lia.
  reflexivity.
Qed.

Lemma Atoi_Itoa (i : Z) :
  - 2 ^ 63 <= i < 2 ^ 63 -> strconv.Atoi (strconv.Itoa i) = inl i.
Proof.
  intros Hi. unfold strconv.Atoi, strconv.Itoa.
  destruct (Z.ltb_spec i 0) as [Hneg | Hpos].
  - unfold strconv.ParseInt.
    change (Ascii.eqb "-" "+" || Ascii.eqb "-" "-") with true.
    change (Ascii.eqb "-" "-") with true. cbv iota.
    rewrite ParseUint_formatBits by lia.
    cbn [negb andb].
    destruct (Z.gtb_spec (- i) (2 ^ 63)); [lia|].
    f_equal. lia.
  - destruct (formatBits_digits 19 i Hpos) as (d & t & Hd & Hs).
    pose proof (digit_not_sign d Hd) as Hsign.
    unfold strconv.ParseInt. rewrite Hs, Hsign.
    apply orb_false_iff in Hsign. rewrite (proj2 Hsign), <- Hs.
    rewrite ParseUint_formatBits by lia.
    cbn [negb andb].
    destruct (Z.geb_spec i (2 ^ 63)); [lia | reflexivity].
Qed.

Lemma segment_append_slash (seg rest : string) :
  segment (seg +:+ String "/" rest) = segment seg.
Proof.
  induction seg as [|c t IH]; simpl; [reflexivity|].
  destruct (Ascii.eqb c "/"); [reflexivity | now rewrite IH].
Qed.

(** ** The handlers *)

Section Properties.

Variable Decode : string -> option createUserReq.

Lemma eqb_empty_blank (s : string) :
  String.eqb (strings.TrimSpace s) "" = false <-> ~ blank s.
Proof. unfold blank. apply String.eqb_neq. Qed.

(** Both fields pass the check of [createUser] exactly when neither is
    blank. *)
Lemma required_fields (req : createUserReq) :
  String.eqb (strings.TrimSpace (Username req)) ""
  || String.eqb (strings.TrimSpace (Email req)) "" = false
  <-> ~ blank (Username req) /\ ~ blank (Email req).
Proof. rewrite orb_false_iff, !eqb_empty_blank. reflexivity. Qed.

(** [getUser] depends on the path through its first segment only. *)
Lemma getUser_segment (r : Request) (tail : string) :
  Path r = "/users/" +:+ tail ->
  getUser r =
    if String.eqb (segment tail) ""
    then Reply (jsonWrite 400 (errorBody "Invalid user_id"))
    else
      match strconv.Atoi (segment tail) with
      | inr _ => Reply (jsonWrite 400 (errorBody "Invalid user_id"))
      | inl id =>
          QueryRow
            (sql.ScanUser
               {| sql.ctx := WithTimeout (Ctx r) (60 * Second);
                  sql.query := selectUserSQL;
                  sql.args := [sql.ArgInt id] |})
            (fun res =>
               match res with
               | inr sql.ErrNoRows =>
                   Reply (jsonWrite 404 (errorBody "User not found"))
               | inr err => Reply (jsonWrite 500 (databaseError err))
               | inl (userID, username, email) =>
                   Reply (jsonWrite 200
                            {[ "user_id" := JNumber userID;
                               "username" := JString username;
                               "email" := JString email ]})
               end)
      end.
Proof.
  intros Hpath. unfold getUser. rewrite Hpath, TrimPrefix_users.
  destruct (Split_segment tail) as [rest ->]. reflexivity.
Qed.

(** [handleUsers] hands every [GET] under [/users/] to [getUser]. *)
Lemma handleUsers_get (r : Request) (tail : string) :
  Method r = "GET" -> Path r = "/users/" +:+ tail ->
  handleUsers Decode r = getUser r.
Proof.
  intros Hm Hp. unfold handleUsers. rewrite Hm, Hp, HasPrefix_users.
  reflexivity.
Qed.

Lemma refuses_reply (status : Z) (body : gmap string JSON) :
  refuses (Reply (jsonWrite status body)) status body.
Proof. repeat split. Qed.

(** C2. Validation in [createUser] comes first and in order: a body that
    does not decode is answered 400 [invalid JSON]; a body that decodes
    but whose username or email is blank is answered 400 [username and
    email are required]; either reply is the whole run, so no statement
    is issued and nothing is written. *)
Theorem createUser_validation (r : Request) :
  (Decode (Body r) = None ->
   refuses (createUser Decode r) 400 {[ "error" := JString "invalid JSON" ]})
  /\ (forall req, Decode (Body r) = Some req ->
      blank (Username req) \/ blank (Email req) ->
      refuses (createUser Decode r) 400
        {[ "error" := JString "username and email are required" ]}).
Proof.
  split.
  - intros Hd. unfold createUser. rewrite Hd. apply refuses_reply.
  - intros req Hd Hblank. unfold createUser. rewrite Hd.
    destruct (_ || _) eqn:Hreq; [apply refuses_reply|].
    apply required_fields in Hreq. tauto.
Qed.


(** C4. A [GET /users/{id}] request whose identifier parses issues the
    [SELECT] by primary key; when it finds no row the reply is 404 [User
    not found], and the reply is a 404 in that case only: any other error
    and any row give another status. *)
Theorem getUser_not_found (r : Request) (tail : string) (id : Z)
    (answer : forall X, sql.Call X -> X) :
  Method r = "GET" -> Path r = "/users/" +:+ tail ->
  strconv.Atoi (segment tail) = inl id ->
  let q := {| sql.ctx := WithTimeout (Ctx r) (60 * Second);
              sql.query := selectUserSQL;
              sql.args := [sql.ArgInt id] |} in
  issued answer (handleUsers Decode r) = [q]
  /\ (answer _ (sql.ScanUser q) = inr sql.ErrNoRows ->
      response answer (handleUsers Decode r) =
        jsonWrite 404 {[ "error" := JString "User not found" ]})
  /\ (Status (response answer (handleUsers Decode r)) = 404
      <-> answer _ (sql.ScanUser q) = inr sql.ErrNoRows).
Proof.
  intros Hm Hp Hid q.
  rewrite (handleUsers_get r tail Hm Hp), (getUser_segment r tail Hp), Hid.
  destruct (Atoi_segment _ _ Hid) as [_ Hne].
  apply String.eqb_neq in Hne. rewrite Hne.
  simpl. fold q.
  destruct (answer _ (sql.ScanUser q)) as [[[uid name] mail]|[|text]];
    simpl; repeat split; try reflexivity; intros; discriminate.
Qed.

(** C5. A [GET] request under [/users/] whose first segment is empty or
    is not accepted by [Atoi] is answered 400 [Invalid user_id], and that
    reply is the whole run: no statement is issued. *)
Theorem getUser_invalid_id (r : Request) (tail : string) :
  Method r = "GET" -> Path r = "/users/" +:+ tail ->
  segment tail = "" \/ (exists e, strconv.Atoi (segment tail) = inr e) ->
  refuses (handleUsers Decode r) 400 {[ "error" := JString "Invalid user_id" ]}.
Proof.
  intros Hm Hp Hbad.
  rewrite (handleUsers_get r tail Hm Hp), (getUser_segment r tail Hp).
  destruct (String.eqb_spec (segment tail) "") as [_ | Hne];
    [apply refuses_reply|].
  destruct Hbad as [Hempty | [e He]]; [contradiction|].
  rewrite He. apply refuses_reply.
Qed.


Lemma matches_root (path : string) : matches "/" path = true.
Proof. reflexivity. Qed.

Lemma matches_exact (path : string) :
  matches "/users" path = String.eqb path "/users".
Proof. reflexivity. Qed.

Lemma matches_subtree (path : string) :
  matches "/users/" path = strings.HasPrefix path "/users/".
Proof. reflexivity. Qed.

(** The handler the mux picks among the three registrations. *)
Lemma lookup_route_routes (path : string) :
  snd <$> lookup_route (routes Decode) path None =
    Some (if String.eqb path "/users" || strings.HasPrefix path "/users/"
          then handleUsers Decode else handleRoot).
Proof.
  unfold routes. cbn [lookup_route].
  rewrite matches_root, matches_exact, matches_subtree.
  destruct (String.eqb path "/users"), (strings.HasPrefix path "/users/");
    reflexivity.
Qed.


(** C8. Path segments after the first are ignored: [GET /users/seg/rest]
    is handled exactly as [GET /users/seg], and the identifier looked up
    is the one [seg] spells. *)
Theorem extra_segments_ignored (seg rest body : string) (c : Context) :
  NoSlash seg ->
  let short := {| Method := "GET"; Path := "/users/" +:+ seg;
                  Body := body; Ctx := c |} in
  let long := {| Method := "GET"; Path := "/users/" +:+ seg +:+ "/" +:+ rest;
                 Body := body; Ctx := c |} in
  handleUsers Decode long = handleUsers Decode short
  /\ forall answer id, strconv.Atoi seg = inl id ->
       issued answer (handleUsers Decode long) =
         [ {| sql.ctx := WithTimeout c (60 * Second);
              sql.query := selectUserSQL;
              sql.args := [sql.ArgInt id] |} ].
Proof.
  intros Hseg short long.
  assert (Hlong : handleUsers Decode long = handleUsers Decode short).
  { rewrite (handleUsers_get long (seg +:+ "/" +:+ rest) eq_refl eq_refl).
    rewrite (handleUsers_get short seg eq_refl eq_refl).
    rewrite (getUser_segment long (seg +:+ "/" +:+ rest) eq_refl).
    rewrite (getUser_segment short seg eq_refl).
    change ("/" +:+ rest) with (String "/" rest).
    now rewrite segment_append_slash. }
  split; [exact Hlong|].
  intros answer id Hid. rewrite Hlong.
  rewrite (handleUsers_get short seg eq_refl eq_refl).
  rewrite (getUser_segment short seg eq_refl).
  rewrite (segment_NoSlash seg Hseg), Hid.
  destruct (Atoi_segment _ _ Hid) as [_ Hne].
  apply String.eqb_neq in Hne. rewrite Hne.
  simpl. now destruct (answer _ _) as [[[uid name] mail]|[|text]].
Qed.

(** Every statement of either handler runs under a context derived from
    the one of the request with a timeout of 60 seconds, and a run issues
    one statement at most. *)
Lemma statements_carry_timeout (r : Request)
    (answer : forall X, sql.Call X -> X) (h : Handler Response) :
  h = createUser Decode r \/ h = getUser r ->
  (length (issued answer h) <= 1)%nat
  /\ forall q, In q (issued answer h) ->
       sql.ctx q = WithTimeout (Ctx r) 60000000000.
Proof.
  assert (Hnone : forall resp : Response,
            (length (issued answer (Reply resp)) <= 1)%nat
            /\ forall q, In q (issued answer (Reply resp)) ->
                 sql.ctx q = WithTimeout (Ctx r) 60000000000).
  { intros resp. simpl. split; [lia | intros q []]. }
  intros [-> | ->].
  - unfold createUser. destruct (Decode (Body r)) as [req|]; [|apply Hnone].
    destruct (_ || _); [apply Hnone|].
    simpl. destruct (answer _ _); simpl;
      (split; [lia | now intros q [<- | []]]).
  - unfold getUser. destruct (strings.Split _ _) as [|part0 rest];
      [apply Hnone|].
    destruct (String.eqb part0 ""); [apply Hnone|].
    destruct (strconv.Atoi part0) as [id|]; [|apply Hnone].
    simpl. destruct (answer _ _) as [[[uid name] mail]|[|text]]; simpl;
      (split; [lia | now intros q [<- | []]]).
Qed.

(** ** The handlers against the table *)

Section Table.

Variable rejects : gmap Z (string * string) -> string -> string -> option string.

(** A create request that passes validation runs the [INSERT] and turns
    its outcome into the reply. *)
Lemma run_createUser (r : Request) (req : createUserReq) (t : pg.Table) :
  Decode (Body r) = Some req ->
  ~ blank (Username req) -> ~ blank (Email req) ->
  pg.run rejects (createUser Decode r) t =
    (match fst (pg.insert rejects (Username req) (Email req) t) with
     | inl id =>
         jsonWrite 201 {[ "message" := JString "User created successfully";
                          "user_id" := JNumber id ]}
     | inr err => jsonWrite 500 (databaseError err)
     end,
     snd (pg.insert rejects (Username req) (Email req) t)).
Proof.
  intros Hd Hu He. unfold createUser. rewrite Hd.
  rewrite (proj2 (required_fields req) (conj Hu He)).
  cbn [pg.run pg.exec sql.query sql.args]. rewrite String.eqb_refl.
  now destruct (pg.insert _ _ _ t) as [[id|err] t'].
Qed.

(** A get request whose path spells [id] runs the [SELECT] and leaves
    the table as it is. *)
Lemma run_getUser (r : Request) (seg : string) (id : Z) (t : pg.Table) :
  Method r = "GET" -> Path r = "/users/" +:+ seg ->
  strconv.Atoi seg = inl id ->
  pg.run rejects (handleUsers Decode r) t =
    (match pg.select id t with
     | inl (userID, username, email) =>
         jsonWrite 200 {[ "user_id" := JNumber userID;
                          "username" := JString username;
                          "email" := JString email ]}
     | inr sql.ErrNoRows => jsonWrite 404 (errorBody "User not found")
     | inr err => jsonWrite 500 (databaseError err)
     end, t).
Proof.
  intros Hm Hp Hid.
  rewrite (handleUsers_get r seg Hm Hp), (getUser_segment r seg Hp).
  destruct (Atoi_segment _ _ Hid) as [Hseg Hne].
  rewrite Hseg, Hid. apply String.eqb_neq in Hne. rewrite Hne.
  cbn [pg.run pg.exec sql.query sql.args]. rewrite String.eqb_refl.
  now destruct (pg.select id t) as [[[uid name] mail]|[|text]].
Qed.

(** What a successful [INSERT] has done. *)
Lemma insert_stored (username email : string) (t t' : pg.Table) (id : Z) :
  pg.insert rejects username email t = (inl id, t') ->
  id = pg.last_value t + 1 /\ id <= pg.maxInt32
  /\ pg.rows t !! id = None
  /\ t' = {| pg.rows := <[ id := (username, email) ]> (pg.rows t);
             pg.last_value := id |}.
Proof.
  unfold pg.insert.
  destruct (Z.gtb_spec (pg.last_value t + 1) pg.maxInt32) as [|Hmax];
    [discriminate|].
  destruct (rejects _ _ _); [discriminate|].
  destruct (pg.rows t !! (pg.last_value t + 1)) eqn:Hfree; [discriminate|].
  intros [= <- <-]. auto.
Qed.

(** The row of a successful [INSERT] is what the [SELECT] by its
    identifier returns. *)
Lemma select_inserted (username email : string) (t t' : pg.Table) (id : Z) :
  0 <= pg.last_value t ->
  pg.insert rejects username email t = (inl id, t') ->
  pg.select id t' = inl (id, username, email).
Proof.
  intros Hseq Hins.
  destruct (insert_stored _ _ _ _ _ Hins) as (Hid & Hmax & _ & ->).
  unfold pg.select. cbn [pg.rows]. rewrite lookup_insert_eq.
  destruct (Z.leb_spec pg.minInt32 id), (Z.leb_spec id pg.maxInt32);
    try reflexivity; unfold pg.minInt32 in *; lia.
Qed.

(** The outcome of a successful create request against the table, and of
    a get request on its identifier that follows. *)
Lemma create_then_get (r : Request) (req : createUserReq)
    (t t' : pg.Table) (resp : Response) :
  Decode (Body r) = Some req ->
  ~ blank (Username req) -> ~ blank (Email req) ->
  0 <= pg.last_value t ->
  pg.run rejects (createUser Decode r) t = (resp, t') ->
  Status resp = 201 ->
  exists id,
    resp = jsonWrite 201 {[ "message" := JString "User created successfully";
                            "user_id" := JNumber id ]}
    /\ pg.last_value t < id <= pg.maxInt32
    /\ pg.rows t !! id = None
    /\ pg.rows t' !! id = Some (Username req, Email req)
    /\ forall r' seg,
         Method r' = "GET" -> Path r' = "/users/" +:+ seg ->
         strconv.Atoi seg = inl id ->
         pg.run rejects (handleUsers Decode r') t' =
           (jsonWrite 200 {[ "user_id" := JNumber id;
                             "username" := JString (Username req);
                             "email" := JString (Email req) ]}, t').
Proof.
  intros Hd Hu He Hseq Hrun Hok.
  rewrite (run_createUser r req t Hd Hu He) in Hrun.
  destruct (pg.insert rejects (Username req) (Email req) t)
    as [[id|err] t1] eqn:Hins; cbn [fst snd] in Hrun;
    injection Hrun as <- <-; [|discriminate Hok].
  exists id.
  pose proof (select_inserted _ _ _ _ _ Hseq Hins) as Hsel.
  destruct (insert_stored _ _ _ _ _ Hins) as (Hid & Hmax & Hfree & Ht1).
  repeat split; [lia | exact Hmax | exact Hfree | | ].
  - rewrite Ht1. cbn [pg.rows]. apply lookup_insert_eq.
  - intros r' seg Hm Hp Hseg.
    now rewrite (run_getUser r' seg id t1 Hm Hp Hseg), Hsel.
Qed.

(** C1. Round trip: when a create request with a non-blank username and
    email succeeds (status 201) against the table, its reply carries an
    identifier that is positive and was never handed out before, and a
    get request on that identifier that follows (its path spells the
    identifier as [Itoa] writes it, or in any other way [Atoi] reads as
    the identifier) is answered 200 with the identifier and the username
    and email that were submitted. *)
Theorem create_get_round_trip (r : Request) (req : createUserReq)
    (t t' : pg.Table) (resp : Response) :
  Decode (Body r) = Some req ->
  ~ blank (Username req) -> ~ blank (Email req) ->
  0 <= pg.last_value t ->
  pg.run rejects (createUser Decode r) t = (resp, t') ->
  Status resp = 201 ->
  exists id,
    Payload_of resp =
      JSONObject {[ "message" := JString "User created successfully";
                    "user_id" := JNumber id ]}
    /\ 0 < id /\ pg.last_value t < id /\ pg.rows t !! id = None
    /\ (forall body c,
          pg.run rejects
            (handleUsers Decode
               {| Method := "GET"; Path := "/users/" +:+ strconv.Itoa id;
                  Body := body; Ctx := c |}) t' =
            (jsonWrite 200 {[ "user_id" := JNumber id;
                              "username" := JString (Username req);
                              "email" := JString (Email req) ]}, t'))
    /\ forall r' seg,
         Method r' = "GET" -> Path r' = "/users/" +:+ seg ->
         strconv.Atoi seg = inl id ->
         pg.run rejects (handleUsers Decode r') t' =
           (jsonWrite 200 {[ "user_id" := JNumber id;
                             "username" := JString (Username req);
                             "email" := JString (Email req) ]}, t').
Proof.
  intros Hd Hu He Hseq Hrun Hok.
  destruct (create_then_get r req t t' resp Hd Hu He Hseq Hrun Hok)
    as (id & -> & [Hnew Hmax] & Hfree & _ & Hget).
  exists id.
  refine (conj eq_refl (conj _ (conj Hnew (conj Hfree (conj _ Hget)))));
    [lia|].
  intros body c. apply (Hget _ (strconv.Itoa id)); [reflexivity | reflexivity |].
  apply Atoi_Itoa. unfold pg.maxInt32 in Hmax. lia.
Qed.

(** C10. The fields are trimmed for the emptiness check only: the
    [INSERT] is given the username and email as submitted, so the row
    that a successful create request stores, and the reply of a get
    request that follows, hold them with their surrounding white space. *)
Theorem untrimmed_persistence (r : Request) (req : createUserReq)
    (t t' : pg.Table) (resp : Response) :
  Decode (Body r) = Some req ->
  ~ blank (Username req) -> ~ blank (Email req) ->
  0 <= pg.last_value t ->
  pg.run rejects (createUser Decode r) t = (resp, t') ->
  Status resp = 201 ->
  (forall answer,
     map sql.args (issued answer (createUser Decode r)) =
       [[sql.ArgString (Username req); sql.ArgString (Email req)]])
  /\ exists id,
       Payload_of resp =
         JSONObject {[ "message" := JString "User created successfully";
                       "user_id" := JNumber id ]}
       /\ pg.rows t' !! id = Some (Username req, Email req)
       /\ forall r' seg,
            Method r' = "GET" -> Path r' = "/users/" +:+ seg ->
            strconv.Atoi seg = inl id ->
            Payload_of (fst (pg.run rejects (handleUsers Decode r') t')) =
              JSONObject {[ "user_id" := JNumber id;
                            "username" := JString (Username req);
                            "email" := JString (Email req) ]}.
Proof.
  intros Hd Hu He Hseq Hrun Hok. split.
  - intros answer. unfold createUser. rewrite Hd.
    rewrite (proj2 (required_fields req) (conj Hu He)).
    simpl. now destruct (answer _ _).
  - destruct (create_then_get r req t t' resp Hd Hu He Hseq Hrun Hok)
      as (id & -> & _ & _ & Hrow & Hget).
    exists id. repeat split; [exact Hrow|].
    intros r' seg Hm Hp Hseg. now rewrite (Hget r' seg Hm Hp Hseg).
Qed.

End Table.

End Properties.

(** ** The properties on the sample requests *)

Lemma alice_not_blank : ~ blank (Username alice) /\ ~ blank (Email alice).
Proof. split; intros H; vm_compute in H; discriminate H. Defined.

Lemma paddedAlice_not_blank :
  ~ blank (Username paddedAlice) /\ ~ blank (Email paddedAlice).
Proof. split; intros H; vm_compute in H; discriminate H. Defined.

Lemma createUser_validation_witness :
  refuses (createUser sampleDecode (POST "/users" "not json")) 400
    {[ "error" := JString "invalid JSON" ]}
  /\ refuses (createUser sampleDecode (POST "/users" (bodyOf nameless))) 400
       {[ "error" := JString "username and email are required" ]}.
Proof.
  split.
  - apply (proj1 (createUser_validation sampleDecode
                    (POST "/users" "not json"))).
    reflexivity.
  - apply (proj2 (createUser_validation sampleDecode
                    (POST "/users" (bodyOf nameless))) nameless).
    + reflexivity.
    + left. reflexivity.
Defined.


Lemma getUser_not_found_witness :
  response rowless (handleUsers sampleDecode (GET "/users/9999")) =
    jsonWrite 404 {[ "error" := JString "User not found" ]}.
Proof.
  destruct (getUser_not_found sampleDecode (GET "/users/9999") "9999" 9999
              rowless eq_refl eq_refl eq_refl) as (_ & Hreply & _).
  apply Hreply. reflexivity.
Defined.

Lemma getUser_invalid_id_witness :
  refuses (handleUsers sampleDecode (GET "/users/notanumber")) 400
    {[ "error" := JString "Invalid user_id" ]}.
Proof.
  apply (getUser_invalid_id sampleDecode (GET "/users/notanumber")
           "notanumber" eq_refl eq_refl).
  right. exists strconv.ErrSyntax. reflexivity.
Defined.


Lemma extra_segments_ignored_witness :
  handleUsers sampleDecode (GET "/users/1/extra") =
  handleUsers sampleDecode (GET "/users/1").
Proof.
  apply (extra_segments_ignored sampleDecode "1" "extra" ""
           (WithCancel Background)).
  intros [H | []]. discriminate H.
Defined.

Lemma create_get_round_trip_witness :
  exists id,
    0 < id
    /\ pg.run unconstrained (handleUsers sampleDecode (GET "/users/1"))
         (snd (pg.run unconstrained
                 (createUser sampleDecode (POST "/users" (bodyOf alice)))
                 emptyTable)) =
       (jsonWrite 200 {[ "user_id" := JNumber id;
                         "username" := JString "alice";
                         "email" := JString "a@x.com" ]},
        snd (pg.run unconstrained
               (createUser sampleDecode (POST "/users" (bodyOf alice)))
               emptyTable)).
Proof.
  destruct (create_get_round_trip sampleDecode unconstrained
              (POST "/users" (bodyOf alice)) alice emptyTable
              (snd (pg.run unconstrained
                      (createUser sampleDecode (POST "/users" (bodyOf alice)))
                      emptyTable))
              (fst (pg.run unconstrained
                      (createUser sampleDecode (POST "/users" (bodyOf alice)))
                      emptyTable))
              eq_refl (proj1 alice_not_blank) (proj2 alice_not_blank)
              (Z.le_refl 0) eq_refl eq_refl)
    as (id & Hbody & Hpos & _ & _ & _ & Hget).
  exists id. split; [exact Hpos|].
  apply (Hget (GET "/users/1") "1" eq_refl eq_refl).
  apply (f_equal (fun p => match p with
                             | JSONObject fields => fields !! "user_id"
                             | PlainText _ => None
                             end)) in Hbody.
  vm_compute in Hbody. now injection Hbody as <-.
Defined.

Lemma untrimmed_persistence_witness :
  exists id,
    pg.rows (snd (pg.run unconstrained
                    (createUser sampleDecode
                       (POST "/users" (bodyOf paddedAlice)))
                    emptyTable)) !! id = Some (" alice ", " a@x.com ").
Proof.
  destruct (untrimmed_persistence sampleDecode unconstrained
              (POST "/users" (bodyOf paddedAlice)) paddedAlice emptyTable
              (snd (pg.run unconstrained
                      (createUser sampleDecode
                         (POST "/users" (bodyOf paddedAlice)))
                      emptyTable))
              (fst (pg.run unconstrained
                      (createUser sampleDecode
                         (POST "/users" (bodyOf paddedAlice)))
                      emptyTable))
              eq_refl (proj1 paddedAlice_not_blank)
              (proj2 paddedAlice_not_blank)
              (Z.le_refl 0) eq_refl eq_refl)
    as (_ & id & _ & Hrow & _).
  exists id. exact Hrow.
Defined.

(** ** The example scenarios of the spec, run through the service *)

(** The table after scenario 1. *)
Lemma scenario_table :
  snd (pg.run unconstrained
         (ServeHTTP sampleDecode (POST "/users" (bodyOf alice))) emptyTable) =
  {| pg.rows := {[ 1 := ("alice", "a@x.com") ]}; pg.last_value := 1 |}.
Proof. reflexivity. Qed.

Example scenario_1_create :
  fst (pg.run unconstrained
         (ServeHTTP sampleDecode (POST "/users" (bodyOf alice))) emptyTable) =
  jsonWrite 201 {[ "message" := JString "User created successfully";
                   "user_id" := JNumber 1 ]}.
Proof. reflexivity. Qed.

Example scenario_2_get :
  fst (pg.run unconstrained (ServeHTTP sampleDecode (GET "/users/1"))
         {| pg.rows := {[ 1 := ("alice", "a@x.com") ]}; pg.last_value := 1 |}) =
  jsonWrite 200 {[ "user_id" := JNumber 1;
                   "username" := JString "alice";
                   "email" := JString "a@x.com" ]}.
Proof. reflexivity. Qed.

Example scenario_3_never_created :
  fst (pg.run unconstrained (ServeHTTP sampleDecode (GET "/users/9999"))
         {| pg.rows := {[ 1 := ("alice", "a@x.com") ]}; pg.last_value := 1 |}) =
  jsonWrite 404 {[ "error" := JString "User not found" ]}.
Proof. reflexivity. Qed.

Example scenario_4_empty_username :
  ServeHTTP sampleDecode (POST "/users" (bodyOf nameless)) =
  Reply (jsonWrite 400 {[ "error" := JString "username and email are required" ]}).
Proof. reflexivity. Qed.

Example scenario_5_not_a_number :
  ServeHTTP sampleDecode (GET "/users/notanumber") =
  Reply (jsonWrite 400 {[ "error" := JString "Invalid user_id" ]}).
Proof. reflexivity. Qed.

Example scenario_6_delete :
  ServeHTTP sampleDecode
    {| Method := "DELETE"; Path := "/users/1"; Body := "";
       Ctx := WithCancel Background |} =
  Reply (jsonWrite 404 {[ "error" := JString "Not Found" ]}).
Proof. reflexivity. Qed.

Example get_users_without_slash :
  ServeHTTP sampleDecode (GET "/users") =
  Reply (jsonWrite 404 {[ "error" := JString "Not Found" ]}).
Proof. reflexivity. Qed.

Example get_root :
  ServeHTTP sampleDecode (GET "/") =
  Reply (jsonWrite 200 {[ "message" := JString "Hello World from Go" ]}).
Proof. reflexivity. Qed.

(** * The service as a whole *)

Lemma HasPrefix_append (s prefix : string) :
  strings.HasPrefix s prefix = true -> exists tail, s = prefix +:+ tail.
Proof.
  unfold strings.HasPrefix. revert s.
  induction prefix as [|a p IH]; intros s H.
  - exists s. reflexivity.
  - destruct s as [|b t]; [discriminate H|].
    rewrite prefix_cons in H. apply andb_true_iff in H as [Hab Hp].
    apply Ascii.eqb_eq in Hab as ->.
    destruct (IH t Hp) as [tail ->]. exists tail. reflexivity.
Qed.

Section Service.

Variable Decode : string -> option createUserReq.

(** The handler a request is routed to. *)
Lemma ServeHTTP_handler (r : Request) :
  ServeHTTP Decode r =
    if String.eqb (Path r) "/users" || strings.HasPrefix (Path r) "/users/"
    then handleUsers Decode r else handleRoot r.
Proof.
  unfold ServeHTTP.
  pose proof (lookup_route_routes Decode (Path r)) as Hroute.
  destruct (lookup_route (routes Decode) (Path r) None) as [[pattern h]|];
    [|discriminate].
  injection Hroute as ->. now destruct (_ || _).
Qed.

(** The three courses a request can take through the service: a reply
    without any statement (the greeting, [Not Found], or a 400 with a
    reason), the [INSERT] of [createUser], or the [SELECT] of
    [getUser]; and for the last two, the reply that each outcome of the
    statement leads to. *)
Lemma ServeHTTP_runs (r : Request) (answer : forall X, sql.Call X -> X) :
  (issued answer (ServeHTTP Decode r) = []
   /\ ((Method r = "GET" /\ Path r = "/"
        /\ response answer (ServeHTTP Decode r) =
             jsonWrite 200 {[ "message" := JString "Hello World from Go" ]})
       \/ response answer (ServeHTTP Decode r) =
            jsonWrite 404 (errorBody "Not Found")
       \/ exists text, response answer (ServeHTTP Decode r) =
            jsonWrite 400 (errorBody text)))
  \/ (Method r = "POST" /\ Path r = "/users"
      /\ exists req, Decode (Body r) = Some req
         /\ ~ blank (Username req) /\ ~ blank (Email req)
         /\ issued answer (ServeHTTP Decode r) = [insertQuery (Ctx r) req]
         /\ response answer (ServeHTTP Decode r) =
              match answer _ (sql.ScanID (insertQuery (Ctx r) req)) with
              | inl id =>
                  jsonWrite 201
                    {[ "message" := JString "User created successfully";
                       "user_id" := JNumber id ]}
              | inr err => jsonWrite 500 (databaseError err)
              end)
  \/ (Method r = "GET"
      /\ exists tail id, Path r = "/users/" +:+ tail
         /\ strconv.Atoi (segment tail) = inl id
         /\ issued answer (ServeHTTP Decode r) = [selectQuery (Ctx r) id]
         /\ response answer (ServeHTTP Decode r) =
              match answer _ (sql.ScanUser (selectQuery (Ctx r) id)) with
              | inl (userID, username, email) =>
                  jsonWrite 200 {[ "user_id" := JNumber userID;
                                   "username" := JString username;
                                   "email" := JString email ]}
              | inr sql.ErrNoRows => jsonWrite 404 (errorBody "User not found")
              | inr err => jsonWrite 500 (databaseError err)
              end).
Proof.
  rewrite ServeHTTP_handler.
  destruct (String.eqb (Path r) "/users" || strings.HasPrefix (Path r) "/users/")
    eqn:Husers.
  - unfold handleUsers, http.MethodPost, http.MethodGet.
    destruct (String.eqb_spec (Method r) "POST") as [Hpost | Hpost];
      destruct (String.eqb_spec (Path r) "/users") as [Hpath | Hpath];
      cbn [andb].
    + (* POST /users *)
      unfold createUser.
      destruct (Decode (Body r)) as [req|] eqn:Hd;
        [|left; split; [reflexivity | right; right; eexists; reflexivity]].
      destruct (String.eqb (strings.TrimSpace (Username req)) ""
                || String.eqb (strings.TrimSpace (Email req)) "") eqn:Hreq;
        [left; split; [reflexivity | right; right; eexists; reflexivity]|].
      apply required_fields in Hreq as [Hu He].
      right; left. split; [exact Hpost|]. split; [exact Hpath|].
      exists req. repeat (split; [assumption|]).
      fold (insertQuery (Ctx r) req). cbn [issued response sql.query_of].
      now destruct (answer _ (sql.ScanID (insertQuery (Ctx r) req))).
    + (* POST elsewhere under /users/ *)
      rewrite Hpost. cbn.
      left; split; [reflexivity | right; left; reflexivity].
    + (* another method on /users *)
      rewrite Hpath.
      change (strings.HasPrefix "/users" "/users/") with false.
      rewrite andb_false_r.
      left; split; [reflexivity | right; left; reflexivity].
    + (* another method under /users/ *)
      cbn [orb] in Husers. rename Husers into Hp.
      rewrite Hp, andb_true_r.
      destruct (String.eqb_spec (Method r) "GET") as [Hget | Hget];
        [|left; split; [reflexivity | right; left; reflexivity]].
      destruct (HasPrefix_append _ _ Hp) as [tail Htail].
      rewrite (getUser_segment r tail Htail).
      destruct (String.eqb (segment tail) "");
        [left; split; [reflexivity | right; right; eexists; reflexivity]|].
      destruct (strconv.Atoi (segment tail)) as [id|e] eqn:Hid;
        [|left; split; [reflexivity | right; right; eexists; reflexivity]].
      right; right. split; [exact Hget|].
      exists tail, id. repeat (split; [assumption || reflexivity|]).
      fold (selectQuery (Ctx r) id). cbn [issued response sql.query_of].
      now destruct (answer _ (sql.ScanUser (selectQuery (Ctx r) id)))
        as [[[uid uname] mail]|[|text]].
  - unfold handleRoot, http.MethodGet.
    destruct (String.eqb_spec (Method r) "GET") as [Hget | Hget];
      destruct (String.eqb_spec (Path r) "/") as [Hroot | Hroot]; cbn;
      left; (split; [reflexivity|]); auto.
Qed.



(** X3. A request issues one statement at most.  Its text is one of the
    two constant statements, whatever the request holds: what the client
    sent reaches the database as an argument only.  Its context is the
    one of the request with a timeout of 60 seconds. *)
Theorem one_constant_statement (r : Request)
    (answer : forall X, sql.Call X -> X) :
  (length (issued answer (ServeHTTP Decode r)) <= 1)%nat
  /\ forall q, In q (issued answer (ServeHTTP Decode r)) ->
       (sql.query q = insertUserSQL \/ sql.query q = selectUserSQL)
       /\ sql.ctx q = WithTimeout (Ctx r) 60000000000.
Proof.
  destruct (ServeHTTP_runs r answer)
    as [[-> _]
       | [(_ & _ & req & _ & _ & _ & -> & _)
         | (_ & tail & id & _ & _ & -> & _)]]; cbn [length In].
  - split; [lia | intros q []].
  - split; [lia | intros q [<- | []]]. cbn. auto.
  - split; [lia | intros q [<- | []]]. cbn. auto.
Qed.

(** X4. Only [POST /users] writes and only [GET] under [/users/] reads:
    a statement that is issued is the [INSERT], with the two decoded
    fields as its arguments, for a [POST] on the path [/users], or the
    [SELECT], with one integer argument, for a [GET] whose path starts
    with [/users/]. *)
Theorem statement_follows_route (r : Request)
    (answer : forall X, sql.Call X -> X) (q : sql.Query) :
  In q (issued answer (ServeHTTP Decode r)) ->
  (Method r = "POST" /\ Path r = "/users"
   /\ exists req, Decode (Body r) = Some req
      /\ sql.query q = insertUserSQL
      /\ sql.args q = [sql.ArgString (Username req);
                       sql.ArgString (Email req)])
  \/ (Method r = "GET" /\ strings.HasPrefix (Path r) "/users/" = true
      /\ exists id, sql.query q = selectUserSQL
         /\ sql.args q = [sql.ArgInt id]).
Proof.
  destruct (ServeHTTP_runs r answer)
    as [[-> _]
       | [(Hm & Hp & req & Hd & _ & _ & -> & _)
         | (Hm & tail & id & Hp & _ & -> & _)]]; cbn [In].
  - intros [].
  - intros [<- | []]. left. repeat split; try assumption.
    exists req. repeat split. exact Hd.
  - intros [<- | []]. right. split; [exact Hm|].
    split; [rewrite Hp; apply HasPrefix_users|].
    exists id. split; reflexivity.
Qed.

(** X5. The status 201 is written only when the [INSERT] has returned an
    identifier, and the reply carries that identifier. *)
Theorem created_only_after_insert (r : Request)
    (answer : forall X, sql.Call X -> X) :
  Status (response answer (ServeHTTP Decode r)) = 201 ->
  exists req id,
    Method r = "POST" /\ Path r = "/users"
    /\ Decode (Body r) = Some req
    /\ issued answer (ServeHTTP Decode r) = [insertQuery (Ctx r) req]
    /\ answer _ (sql.ScanID (insertQuery (Ctx r) req)) = inl id
    /\ response answer (ServeHTTP Decode r) =
         jsonWrite 201 {[ "message" := JString "User created successfully";
                          "user_id" := JNumber id ]}.
Proof.
  destruct (ServeHTTP_runs r answer)
    as [[_ [(_ & _ & ->) | [-> | [text ->]]]]
       | [(Hm & Hp & req & Hd & _ & _ & Hq & ->)
         | (_ & tail & id & _ & _ & _ & ->)]];
    try discriminate.
  - destruct (answer _ (sql.ScanID (insertQuery (Ctx r) req)))
      as [id|err] eqn:Ha; [|discriminate].
    intros _. exists req, id. auto 10.
  - destruct (answer _ _) as [[[uid uname] mail]|[|text]]; discriminate.
Qed.



(** X8. The body of a request matters to [POST /users] only: any other
    request is handled the same whatever its body holds. *)
Theorem body_read_by_create_only (r : Request) (body : string) :
  Method r <> "POST" \/ Path r <> "/users" ->
  ServeHTTP Decode
    {| Method := Method r; Path := Path r; Body := body; Ctx := Ctx r |} =
  ServeHTTP Decode r.
Proof.
  intros Hother. rewrite !ServeHTTP_handler.
  destruct r as [m p b c]. cbn [Method Path Body Ctx] in *.
  unfold handleUsers, handleRoot. cbn [Method Path Body Ctx].
  assert (Hcreate : String.eqb m http.MethodPost && String.eqb p "/users"
                    = false).
  { apply andb_false_iff.
    destruct Hother as [H | H]; [left | right]; now apply String.eqb_neq. }
  rewrite Hcreate. reflexivity.
Qed.


End Service.

(** ** The identifier in the path *)

Lemma ParseUint_loop_nonneg (s : string) (n m : Z) :
  0 <= n -> strconv.ParseUint_loop s n = inl m -> 0 <= m.
Proof.
  revert n. induction s as [|c t IH]; intros n Hn; cbn [strconv.ParseUint_loop].
  - intros [= <-]. exact Hn.
  - destruct (Z.leb_spec 48 (Z.of_N (N_of_ascii c))) as [Hlow|];
      [|discriminate].
    destruct (Z.of_N (N_of_ascii c) <=? 57); [|discriminate].
    cbn [andb].
    destruct (n >=? _); [discriminate|].
    destruct (_ >? _); [discriminate|].
    apply IH. lia.
Qed.

(** What [Atoi] accepts fits an [int64]. *)
Lemma Atoi_int64 (s : string) (n : Z) :
  strconv.Atoi s = inl n -> - 2 ^ 63 <= n < 2 ^ 63.
Proof.
  unfold strconv.Atoi, strconv.ParseInt.
  destruct s as [|c t]; [discriminate|].
  set (digits := if Ascii.eqb c "+" || Ascii.eqb c "-" then t else String c t).
  destruct (strconv.ParseUint digits) as [un|[]] eqn:Hu; try discriminate.
  assert (Hpos : 0 <= un).
  { unfold strconv.ParseUint in Hu. destruct digits; [discriminate|].
    eapply ParseUint_loop_nonneg; [|exact Hu]. lia. }
  destruct (Ascii.eqb c "-"); cbn [negb andb].
  - destruct (Z.gtb_spec un (2 ^ 63)); [discriminate|].
    intros [= <-]. lia.
  - destruct (Z.geb_spec un (2 ^ 63)); [discriminate|].
    intros [= <-]. lia.
Qed.

Lemma formatBits_segment (fuel : nat) (u : Z) (acc : string) :
  0 <= u -> segment acc = acc ->
  segment (strconv.formatBits fuel u acc) = strconv.formatBits fuel u acc.
Proof.
  revert u acc. induction fuel as [|k IH]; intros u acc Hu Hacc;
    cbn [strconv.formatBits]; [exact Hacc|].
  pose proof (Z.mod_pos_bound u 10 ltac:(lia)) as Hmod.
  assert (Hdigit : segment (String (ascii_of_N (Z.to_N (48 + u mod 10))) acc) =
                   String (ascii_of_N (Z.to_N (48 + u mod 10))) acc).
  { cbn [segment]. rewrite digit_not_slash, Hacc; [reflexivity|].
    rewrite (digit_code _ Hmod).
    apply andb_true_iff. split; apply Z.leb_le; lia. }
  destruct (u <? 10); [exact Hdigit|].
  apply IH; [apply Z.div_pos; lia | exact Hdigit].
Qed.

(** A numeral above the range of [uint64] makes the digit loop stop with
    a range error. *)
Lemma ParseUint_loop_formatBits_overflow (fuel : nat) (u : Z) (acc : string) :
  strconv.maxUint64 < u -> u < 10 ^ Z.of_nat fuel ->
  strconv.ParseUint_loop (strconv.formatBits fuel u acc) 0 =
    inr strconv.ErrRange.
Proof.
  unfold strconv.maxUint64.
  change (2 ^ 64 - 1) with 18446744073709551615.
  revert u acc. induction fuel as [|k IH]; intros u acc Hu Hlen.
  - simpl in Hlen. lia.
  - cbn [strconv.formatBits].
    pose proof (Z.mod_pos_bound u 10 ltac:(lia)) as Hmod.
    pose proof (Z.div_mod u 10 ltac:(lia)) as Hdm.
    assert (Hk : u / 10 < 10 ^ Z.of_nat k).
    { apply Z.div_lt_upper_bound; [lia|].
      rewrite Nat2Z.inj_succ, Z.pow_succ_r in Hlen; lia. }
    destruct (Z.ltb_spec u 10); [lia|].
    destruct (Z_le_gt_dec (u / 10) 18446744073709551615) as [Hfit | Hover].
    + rewrite ParseUint_loop_formatBits
        by (unfold strconv.maxUint64;
            change (2 ^ 64 - 1) with 18446744073709551615; lia).
      cbn [strconv.ParseUint_loop]. rewrite (digit_code _ Hmod).
      destruct (Z.leb_spec 48 (48 + u mod 10)); [|lia].
      destruct (Z.leb_spec (48 + u mod 10) 57); [|lia].
      cbn [andb]. unfold strconv.maxUint64.
      change (2 ^ 64 - 1) with 18446744073709551615.
      change (18446744073709551615 / 10 + 1) with 1844674407370955162.
      destruct (Z.geb_spec (u / 10) 1844674407370955162); [reflexivity|].
      destruct (Z.gtb_spec (u / 10 * 10 + (48 + u mod 10 - 48))
                  18446744073709551615); [reflexivity | lia].
    + apply IH; [lia | exact Hk].
Qed.

(** The numeral of a number outside the range of [int64] is refused by
    [Atoi], with or without the minus sign. *)
Lemma Atoi_out_of_range (k : nat) (u : Z) :
  u < 10 ^ Z.of_nat (S k) ->
  (2 ^ 63 <= u ->
   strconv.Atoi (strconv.formatBits (S k) u "") = inr strconv.ErrRange)
  /\ (2 ^ 63 < u ->
      strconv.Atoi (String "-" (strconv.formatBits (S k) u "")) =
        inr strconv.ErrRange).
Proof.
  intros Hlen.
  assert (Hparse : 2 ^ 63 <= u ->
            strconv.ParseUint (strconv.formatBits (S k) u "") = inl u
            \/ strconv.ParseUint (strconv.formatBits (S k) u "") =
                 inr strconv.ErrRange).
  { intros Hu.
    destruct (formatBits_digits k u ltac:(lia)) as (d & t & _ & Hs).
    unfold strconv.ParseUint. rewrite Hs. cbv iota. rewrite <- Hs.
    destruct (Z_le_gt_dec u strconv.maxUint64) as [Hfit | Hover].
    - left. rewrite ParseUint_loop_formatBits by lia. reflexivity.
    - right. apply ParseUint_loop_formatBits_overflow; [lia | exact Hlen]. }
  unfold strconv.Atoi. split; intros Hu.
  - destruct (formatBits_digits k u ltac:(lia)) as (d & t & Hd & Hs).
    pose proof (digit_not_sign d Hd) as Hsign.
    unfold strconv.ParseInt. rewrite Hs, Hsign.
    apply orb_false_iff in Hsign. rewrite (proj2 Hsign), <- Hs.
    destruct (Hparse Hu) as [-> | ->]; [|reflexivity].
    cbn [negb andb]. destruct (Z.geb_spec u (2 ^ 63)); [reflexivity | lia].
  - unfold strconv.ParseInt.
    change (Ascii.eqb "-" "+" || Ascii.eqb "-" "-") with true.
    change (Ascii.eqb "-" "-") with true. cbv iota.
    destruct (Hparse ltac:(lia)) as [-> | ->]; [|reflexivity].
    cbn [negb andb]. destruct (Z.gtb_spec u (2 ^ 63)); [reflexivity | lia].
Qed.

Section Identifier.

Variable Decode : string -> option createUserReq.

(** X9. The identifier is read as a number, not as text: two [GET]
    requests whose segments [Atoi] reads as the same integer (such as
    [7], [+7] and [007]) are handled the same. *)
Theorem same_integer_same_run (seg seg' body body' : string) (c : Context)
    (id : Z) :
  strconv.Atoi seg = inl id -> strconv.Atoi seg' = inl id ->
  handleUsers Decode
    {| Method := "GET"; Path := "/users/" +:+ seg; Body := body; Ctx := c |} =
  handleUsers Decode
    {| Method := "GET"; Path := "/users/" +:+ seg'; Body := body'; Ctx := c |}.
Proof.
  intros Hseg Hseg'.
  set (r := Build_Request "GET" ("/users/" +:+ seg) body c).
  set (r' := Build_Request "GET" ("/users/" +:+ seg') body' c).
  rewrite (handleUsers_get Decode r seg eq_refl eq_refl).
  rewrite (handleUsers_get Decode r' seg' eq_refl eq_refl).
  rewrite (getUser_segment r seg eq_refl), (getUser_segment r' seg' eq_refl).
  destruct (Atoi_segment _ _ Hseg) as [-> Hne].
  destruct (Atoi_segment _ _ Hseg') as [-> Hne'].
  apply String.eqb_neq in Hne, Hne'. rewrite Hne, Hne', Hseg, Hseg'.
  reflexivity.
Qed.

(** X10. The service does not restrict the identifier beyond what [Atoi]
    accepts: for every [int64], zero and the negative ones included, the
    request [GET /users/<i>] issues the [SELECT] with [i] as its
    argument. *)
Theorem every_int64_is_looked_up (i : Z) (body : string) (c : Context)
    (answer : forall X, sql.Call X -> X) :
  - 2 ^ 63 <= i < 2 ^ 63 ->
  issued answer
    (handleUsers Decode
       {| Method := "GET"; Path := "/users/" +:+ strconv.Itoa i;
          Body := body; Ctx := c |}) =
    [selectQuery c i].
Proof.
  intros Hi. pose proof (Atoi_Itoa i Hi) as Hid.
  set (r := Build_Request "GET" ("/users/" +:+ strconv.Itoa i) body c).
  rewrite (handleUsers_get Decode r (strconv.Itoa i) eq_refl eq_refl).
  rewrite (getUser_segment r (strconv.Itoa i) eq_refl).
  destruct (Atoi_segment _ _ Hid) as [-> Hne].
  apply String.eqb_neq in Hne. rewrite Hne, Hid.
  cbn [issued sql.query_of Ctx]. fold (selectQuery c i).
  now destruct (answer _ _) as [[[uid uname] mail]|[|text]].
Qed.

(** X11. A decimal numeral that does not fit an [int64] is refused: [GET
    /users/<u>] for [u] from 2^63 on, and [GET /users/-<u>] for [u] above
    2^63, are answered 400 [Invalid user_id] without any statement,
    however long the numeral is. *)
Theorem out_of_range_id_is_bad_request (k : nat) (u : Z) (body : string)
    (c : Context) :
  u < 10 ^ Z.of_nat (S k) ->
  (2 ^ 63 <= u ->
   refuses
     (handleUsers Decode
        {| Method := "GET";
           Path := "/users/" +:+ strconv.formatBits (S k) u "";
           Body := body; Ctx := c |})
     400 {[ "error" := JString "Invalid user_id" ]})
  /\ (2 ^ 63 < u ->
      refuses
        (handleUsers Decode
           {| Method := "GET";
              Path := "/users/" +:+ String "-" (strconv.formatBits (S k) u "");
              Body := body; Ctx := c |})
        400 {[ "error" := JString "Invalid user_id" ]}).
Proof.
  intros Hlen. destruct (Atoi_out_of_range k u Hlen) as [Hplus Hminus].
  split; intros Hu;
    match goal with
    | |- refuses (handleUsers Decode ?r) _ _ =>
        match r with
        | {| Path := "/users/" +:+ ?tail |} =>
            rewrite (handleUsers_get Decode r tail eq_refl eq_refl);
            rewrite (getUser_segment r tail eq_refl)
        end
    end.
  - rewrite (formatBits_segment (S k) u "") by (reflexivity || lia).
    rewrite (Hplus Hu).
    destruct (String.eqb _ ""); apply refuses_reply.
  - assert (Hseg : segment (String "-" (strconv.formatBits (S k) u "")) =
                   String "-" (strconv.formatBits (S k) u "")).
    { cbn [segment]. change (Ascii.eqb "-" "/") with false. cbv iota.
      now rewrite (formatBits_segment (S k) u "") by (reflexivity || lia). }
    rewrite Hseg, (Hminus Hu).
    destruct (String.eqb _ ""); apply refuses_reply.
Qed.

(** X12. The integer handed to the database always fits an [int64]. *)
Theorem looked_up_id_fits_int64 (r : Request)
    (answer : forall X, sql.Call X -> X) (q : sql.Query) (id : Z) :
  In q (issued answer (getUser r)) ->
  sql.args q = [sql.ArgInt id] ->
  - 2 ^ 63 <= id < 2 ^ 63.
Proof.
  unfold getUser. destruct (strings.Split _ _) as [|part0 rest]; [intros []|].
  destruct (String.eqb part0 ""); [intros []|].
  destruct (strconv.Atoi part0) as [n|e] eqn:Hn; [|intros []].
  cbn [issued sql.query_of].
  destruct (answer _ _) as [[[uid uname] mail]|[|text]];
    intros [<- | []] [= <-]; exact (Atoi_int64 _ _ Hn).
Qed.

End Identifier.

(** ** The start of the process *)

Lemma mustEnv_nonempty (env : gmap string string) (key def : string) :
  def <> "" -> mustEnv env key def <> "".
Proof.
  intros Hdef. unfold mustEnv.
  destruct (String.eqb_spec (Getenv env key) ""); cbn [negb]; assumption.
Qed.

Lemma mustEnv_insert_eq (env : gmap string string) (key def v : string) :
  v <> "" -> mustEnv (<[ key := v ]> env) key def = v.
Proof.
  intros Hv. unfold mustEnv, Getenv. rewrite lookup_insert_eq.
  cbn [from_option id].
  apply String.eqb_neq in Hv. now rewrite Hv.
Qed.

Lemma mustEnv_insert_ne (env : gmap string string) (key key' def v : string) :
  key <> key' -> mustEnv (<[ key := v ]> env) key' def = mustEnv env key' def.
Proof.
  intros Hne. unfold mustEnv, Getenv. now rewrite lookup_insert_ne.
Qed.

Lemma append_not_empty (s t : string) (c : ascii) : s +:+ String c t <> "".
Proof. destruct s; discriminate. Qed.

Lemma append_assoc (s t u : string) : (s +:+ t) +:+ u = s +:+ t +:+ u.
Proof. induction s as [|c s IH]; simpl; [reflexivity | now rewrite IH]. Qed.

(** X13. Whatever the environment holds, none of the six settings of
    [main] is empty: a variable that is not set, or is set to the empty
    string, gives the default, so an empty password, say, cannot be
    configured. *)
Theorem settings_never_empty (env : gmap string string) :
  startup.host (startup.settings env) <> ""
  /\ startup.user (startup.settings env) <> ""
  /\ startup.pass (startup.settings env) <> ""
  /\ startup.name (startup.settings env) <> ""
  /\ startup.port (startup.settings env) <> ""
  /\ startup.httpPort (startup.settings env) <> "".
Proof.
  repeat split; cbn [startup.settings startup.host startup.user startup.pass
                     startup.name startup.port startup.httpPort];
    apply mustEnv_nonempty; discriminate.
Qed.

(** X14. The settings go into the connection string as they are, without
    escaping, so the string does not tell them apart: a password [p@h]
    with the host [x] and the password [p] with the host [h@x] give the
    same string. *)
Theorem dsn_is_ambiguous (env : gmap string string) (p h x : string) :
  p <> "" -> x <> "" ->
  startup.dsn
    (startup.settings
       (<[ "DB_PASSWORD" := p +:+ "@" +:+ h ]> (<[ "DB_HOST" := x ]> env))) =
  startup.dsn
    (startup.settings
       (<[ "DB_PASSWORD" := p ]> (<[ "DB_HOST" := h +:+ "@" +:+ x ]> env))).
Proof.
  intros Hp Hx.
  unfold startup.dsn, startup.settings.
  cbn [startup.host startup.user startup.pass startup.name startup.port
       startup.httpPort].
  rewrite !mustEnv_insert_eq by (assumption || apply append_not_empty).
  rewrite !(mustEnv_insert_ne _ "DB_PASSWORD") by discriminate.
  rewrite !mustEnv_insert_eq by (assumption || apply append_not_empty).
  rewrite !(mustEnv_insert_ne _ "DB_HOST") by discriminate.
  rewrite !append_assoc. reflexivity.
Qed.

(** X15. The server starts to listen exactly when the database has been
    opened and has answered the ping, and then on the configured port
    with a header timeout of ten seconds; a process whose database is
    not ready never listens. *)
Theorem listens_iff_database_ready (env : gmap string string)
    (w : startup.Outside) :
  (forall addr t,
     In (startup.ListenAndServe addr t) (fst (startup.main env w)) ->
     startup.open_db w "pgx" (startup.dsn (startup.settings env)) = None
     /\ startup.ping w (WithTimeout Background (10 * Second)) = None
     /\ addr = ":" +:+ startup.httpPort (startup.settings env)
     /\ t = 10 * Second)
  /\ (startup.open_db w "pgx" (startup.dsn (startup.settings env)) = None ->
      startup.ping w (WithTimeout Background (10 * Second)) = None ->
      In (startup.ListenAndServe
            (":" +:+ startup.httpPort (startup.settings env)) (10 * Second))
         (fst (startup.main env w))).
Proof.
  unfold startup.main, startup.pingWithTimeout.
  destruct (startup.open_db w "pgx" _) as [err|].
  - split; [|discriminate].
    intros addr t [H | [H | []]]; discriminate H.
  - destruct (startup.ping w _) as [err|].
    + split; [|discriminate].
      intros addr t H. cbn in H.
      repeat (destruct H as [H | H]; [discriminate H|]). destruct H.
    + split.
      * intros addr t H.
        assert (Hstep : startup.ListenAndServe
                          (":" +:+ startup.httpPort (startup.settings env))
                          (10 * Second) =
                        startup.ListenAndServe addr t).
        { destruct (startup.serve w _) as [[|text]|]; cbn in H;
            repeat (destruct H as [H | H]; [discriminate H || exact H|]);
            destruct H. }
        injection Hstep as <- <-. auto.
      * intros _ _.
        destruct (startup.serve w _) as [[|text]|]; cbn; auto 10.
Qed.

(** X16. The process ends with status 1 exactly when [sql.Open] fails,
    the ping fails, or the server stops with an error other than
    [http.ErrServerClosed]; a server that was closed is a clean end. *)
Theorem fatal_iff_failure (env : gmap string string) (w : startup.Outside) :
  snd (startup.main env w) = 1
  <-> startup.open_db w "pgx" (startup.dsn (startup.settings env)) <> None
      \/ startup.ping w (WithTimeout Background (10 * Second)) <> None
      \/ exists text,
           startup.serve w (":" +:+ startup.httpPort (startup.settings env)) =
             Some (startup.ServeFailure text).
Proof.
  unfold startup.main, startup.pingWithTimeout.
  destruct (startup.open_db w "pgx" _) as [err|];
    [split; [left; discriminate | reflexivity]|].
  destruct (startup.ping w _) as [err|];
    [split; [right; left; discriminate | reflexivity]|].
  destruct (startup.serve w _) as [[|text]|]; cbn [snd].
  - split; [discriminate|]. intros [H | [H | [text H]]];
      [now contradiction H | now contradiction H | discriminate H].
  - split; [|reflexivity]. intros _. right; right. now exists text.
  - split; [discriminate|]. intros [H | [H | [text H]]];
      [now contradiction H | now contradiction H | discriminate H].
Qed.

(** ** White space *)

Lemma drop_bytes_append (a rest : string) :
  strings.drop_bytes (String.length a) (a +:+ rest) = rest.
Proof. induction a as [|c a IH]; [reflexivity | exact IH]. Qed.

Lemma prefix_append (a rest : string) : String.prefix a (a +:+ rest) = true.
Proof.
  induction a as [|c a IH]; simpl String.append; [apply prefix_empty|].
  now rewrite prefix_cons, Ascii.eqb_refl, IH.
Qed.

(** Two prefixes of one string: one of them starts the other. *)
Lemma prefix_comparable (a b s : string) :
  String.prefix a s = true -> String.prefix b s = true ->
  String.prefix a b = true \/ String.prefix b a = true.
Proof.
  revert b s. induction a as [|x a IH]; intros b s Ha Hb.
  - left. apply prefix_empty.
  - destruct b as [|y b]; [right; reflexivity|].
    destruct s as [|z s]; [discriminate Ha|].
    rewrite prefix_cons in Ha, Hb.
    apply andb_true_iff in Ha as [Hxz Ha], Hb as [Hyz Hb].
    apply Ascii.eqb_eq in Hxz, Hyz. subst x y.
    rewrite !prefix_cons, Ascii.eqb_refl. cbn [andb]. eapply IH; eassumption.
Qed.

Lemma join_app (l l' : list string) :
  fold_right String.append "" (l ++ l') =
  fold_right String.append "" l +:+ fold_right String.append "" l'.
Proof.
  induction l as [|w l IH]; cbn [fold_right app]; [reflexivity|].
  now rewrite IH, append_assoc.
Qed.

(** A width that is not zero is the length of a rune of the table that
    the string starts with. *)
Lemma runeWidth_found (table : list string) (s : string) (k : nat) :
  strings.runeWidth table s = S k ->
  exists w, In w table /\ String.length w = S k
            /\ strings.HasPrefix s w = true.
Proof.
  induction table as [|w rest IH]; cbn [strings.runeWidth]; [discriminate|].
  destruct (strings.HasPrefix s w) eqn:Hw.
  - intros Hlen. exists w. split; [now left | now split].
  - intros H. destruct (IH H) as (w' & Hin & Hlen & Hp).
    exists w'. split; [now right | now split].
Qed.

(** The width zero means that the string starts with no rune of the
    table. *)
Lemma runeWidth_none (table : list string) (s : string) :
  Forall (fun w => w <> "") table ->
  strings.runeWidth table s = O ->
  forall w, In w table -> strings.HasPrefix s w = false.
Proof.
  induction 1 as [|a rest Ha _ IH]; cbn [strings.runeWidth];
    intros Hwidth w Hin; [destruct Hin|].
  destruct (strings.HasPrefix s a) eqn:Hprefix.
  - destruct a; [contradiction | discriminate Hwidth].
  - destruct Hin as [<- | Hin]; [exact Hprefix | exact (IH Hwidth w Hin)].
Qed.

(** What [trimRunes] drops is a sequence of runes of the table. *)
Lemma trimRunes_dropped (table : list string) (s : string) (skip : nat) :
  exists runes, Forall (fun w => In w table) runes
    /\ strings.drop_bytes skip s =
         fold_right String.append "" runes +:+ strings.trimRunes table skip s.
Proof.
  revert skip. induction s as [|c t IH]; intros skip.
  - exists []. split; [constructor | now destruct skip].
  - destruct skip as [|k]; cbn [strings.trimRunes strings.drop_bytes].
    + destruct (strings.runeWidth table (String c t)) as [|k] eqn:Hwidth.
      * exists []. split; [constructor | reflexivity].
      * destruct (runeWidth_found _ _ _ Hwidth) as (w & Hin & Hlen & Hp).
        destruct (HasPrefix_append _ _ Hp) as [tail Htail].
        destruct (IH k) as (runes & Hrunes & Hdrop).
        exists (w :: runes). split; [now constructor|].
        cbn [fold_right]. rewrite append_assoc, <- Hdrop.
        assert (Htl : strings.drop_bytes k t = tail).
        { change (strings.drop_bytes k t)
            with (strings.drop_bytes (S k) (String c t)).
          rewrite Htail, <- Hlen. apply drop_bytes_append. }
        now rewrite Htl.
    + apply IH.
Qed.

Section Runes.

(** A table of runes none of which is empty or starts another one. *)
Variable table : list string.
Hypothesis table_nonempty : Forall (fun w => w <> "") table.
Hypothesis table_prefix_free :
  forall a b, In a table -> In b table -> String.prefix a b = true -> a = b.

(** A string that starts with a rune of the table has the width of that
    rune. *)
Lemma runeWidth_rune (w rest : string) :
  In w table -> strings.runeWidth table (w +:+ rest) = String.length w.
Proof.
  intros Hw.
  destruct (strings.runeWidth table (w +:+ rest)) as [|k] eqn:Hwidth.
  - pose proof (runeWidth_none _ _ table_nonempty Hwidth w Hw) as Hnone.
    unfold strings.HasPrefix in Hnone.
    now rewrite prefix_append in Hnone.
  - destruct (runeWidth_found _ _ _ Hwidth) as (w' & Hin & Hlen & Hp).
    unfold strings.HasPrefix in Hp.
    destruct (prefix_comparable w' w _ Hp (prefix_append w rest)) as [H | H];
      apply table_prefix_free in H; try assumption; now subst w'.
Qed.

Lemma trimRunes_skip (a rest : string) :
  strings.trimRunes table (String.length a) (a +:+ rest) =
  strings.trimRunes table O rest.
Proof. induction a as [|c a IH]; [reflexivity | exact IH]. Qed.

(** A sequence of runes of the table is dropped whole. *)
Lemma trimRunes_runes (runes : list string) :
  Forall (fun w => In w table) runes ->
  strings.trimRunes table O (fold_right String.append "" runes) = "".
Proof.
  induction 1 as [|w runes Hw _ IH]; cbn [fold_right]; [reflexivity|].
  pose proof (runeWidth_rune w (fold_right String.append "" runes) Hw)
    as Hwidth.
  destruct w as [|c w].
  - now destruct (proj1 (List.Forall_forall _ _) table_nonempty "" Hw).
  - simpl String.append in *. cbn [strings.trimRunes].
    rewrite Hwidth. cbn [String.length].
    now rewrite trimRunes_skip.
Qed.

End Runes.

Lemma list_ascii_of_string_append (a b : string) :
  list_ascii_of_string (a +:+ b) =
  (list_ascii_of_string a ++ list_ascii_of_string b)%list.
Proof. induction a as [|c a IH]; simpl; [reflexivity | now rewrite IH]. Qed.

Lemma string_of_list_ascii_app (l l' : list ascii) :
  string_of_list_ascii (l ++ l') =
  string_of_list_ascii l +:+ string_of_list_ascii l'.
Proof. induction l as [|c l IH]; simpl; [reflexivity | now rewrite IH]. Qed.

Lemma reverse_involutive (s : string) :
  strings.reverse (strings.reverse s) = s.
Proof.
  unfold strings.reverse.
  now rewrite list_ascii_of_string_of_list_ascii, rev_involutive,
    string_of_list_ascii_of_string.
Qed.

Lemma reverse_append (a b : string) :
  strings.reverse (a +:+ b) = strings.reverse b +:+ strings.reverse a.
Proof.
  unfold strings.reverse.
  now rewrite list_ascii_of_string_append, rev_app_distr,
    string_of_list_ascii_app.
Qed.

Lemma reverse_join (l : list string) :
  strings.reverse (fold_right String.append "" l) =
  fold_right String.append "" (map strings.reverse (rev l)).
Proof.
  induction l as [|w l IH]; [reflexivity|].
  cbn [fold_right rev]. rewrite reverse_append, IH, map_app, join_app.
  cbn [map fold_right]. now rewrite append_empty_r.
Qed.

Lemma spaceRunes_nonempty : Forall (fun w => w <> "") strings.spaceRunes.
Proof. repeat constructor; discriminate. Qed.

Lemma spaceRunes_prefix_free (a b : string) :
  In a strings.spaceRunes -> In b strings.spaceRunes ->
  String.prefix a b = true -> a = b.
Proof.
  intros Ha Hb Hp.
  assert (Hall : forallb (fun x =>
                   forallb (fun y => implb (String.prefix x y) (String.eqb x y))
                     strings.spaceRunes) strings.spaceRunes = true)
    by (vm_compute; reflexivity).
  rewrite forallb_forall in Hall. specialize (Hall a Ha).
  rewrite forallb_forall in Hall. specialize (Hall b Hb).
  rewrite Hp in Hall. now apply String.eqb_eq.
Qed.

(** The fields [createUser] takes for empty are those that are white
    space throughout. *)
Lemma blank_iff_whitespace_only (s : string) : blank s <-> whitespace_only s.
Proof.
  unfold blank, whitespace_only, strings.TrimSpace, strings.TrimRightSpace,
    strings.TrimLeftSpace.
  split.
  - intros Hblank.
    apply (f_equal strings.reverse) in Hblank.
    rewrite reverse_involutive in Hblank.
    change (strings.reverse "") with "" in Hblank.
    destruct (trimRunes_dropped strings.spaceRunes s O)
      as (left & Hleft & Hs).
    destruct (trimRunes_dropped (map strings.reverse strings.spaceRunes)
                (strings.reverse (strings.trimRunes strings.spaceRunes O s)) O)
      as (right & Hright & Ht).
    cbn [strings.drop_bytes] in Hs, Ht.
    rewrite Hblank, append_empty_r in Ht.
    apply (f_equal strings.reverse) in Ht.
    rewrite reverse_involutive, reverse_join in Ht.
    exists (left ++ map strings.reverse (rev right))%list. split.
    + apply List.Forall_app. split; [exact Hleft|].
      apply List.Forall_forall. intros w Hw.
      apply in_map_iff in Hw as (x & <- & Hx). apply in_rev in Hx.
      rewrite List.Forall_forall in Hright.
      apply Hright, in_map_iff in Hx as (y & <- & Hy).
      now rewrite reverse_involutive.
    + now rewrite join_app, <- Ht.
  - intros (runes & Hrunes & ->).
    now rewrite (trimRunes_runes strings.spaceRunes spaceRunes_nonempty
                   spaceRunes_prefix_free runes Hrunes).
Qed.

Section Validation.

Variable Decode : string -> option createUserReq.

(** X18. The fields [createUser] refuses are exactly those that are white
    space throughout, in ASCII or not: when the username or the email of
    a decoded body is a sequence of white-space runes, empty or of any
    length, the reply is 400 [username and email are required] and no
    statement is issued; when neither is, the [INSERT] is issued. *)
Theorem whitespace_fields_are_refused (r : Request) (req : createUserReq) :
  Decode (Body r) = Some req ->
  (whitespace_only (Username req) \/ whitespace_only (Email req) ->
   refuses (createUser Decode r) 400
     {[ "error" := JString "username and email are required" ]})
  /\ (~ whitespace_only (Username req) -> ~ whitespace_only (Email req) ->
      forall answer,
        issued answer (createUser Decode r) = [insertQuery (Ctx r) req]).
Proof.
  intros Hd. unfold createUser. rewrite Hd. split.
  - intros Hblank.
    destruct (_ || _) eqn:Hreq; [apply refuses_reply|].
    apply required_fields in Hreq as [Hu He].
    rewrite !blank_iff_whitespace_only in Hu, He. tauto.
  - intros Hu He answer.
    rewrite <- blank_iff_whitespace_only in Hu, He.
    rewrite (proj2 (required_fields req) (conj Hu He)).
    cbn [issued sql.query_of]. fold (insertQuery (Ctx r) req).
    now destruct (answer _ _).
Qed.

End Validation.

(** ** The further properties on sample requests *)

Lemma statement_follows_route_witness :
  (Method (GET "/users/7") = "POST" /\ Path (GET "/users/7") = "/users"
   /\ exists req, sampleDecode (Body (GET "/users/7")) = Some req
      /\ sql.query (selectQuery (WithCancel Background) 7) = insertUserSQL
      /\ sql.args (selectQuery (WithCancel Background) 7) =
           [sql.ArgString (Username req); sql.ArgString (Email req)])
  \/ (Method (GET "/users/7") = "GET"
      /\ strings.HasPrefix (Path (GET "/users/7")) "/users/" = true
      /\ exists id,
           sql.query (selectQuery (WithCancel Background) 7) = selectUserSQL
           /\ sql.args (selectQuery (WithCancel Background) 7) =
                [sql.ArgInt id]).
Proof.
  apply (statement_follows_route sampleDecode (GET "/users/7") seventh
           (selectQuery (WithCancel Background) 7)).
  left. reflexivity.
Defined.

Lemma created_only_after_insert_witness :
  exists req id,
    Method (POST "/users" (bodyOf alice)) = "POST"
    /\ Path (POST "/users" (bodyOf alice)) = "/users"
    /\ sampleDecode (Body (POST "/users" (bodyOf alice))) = Some req
    /\ issued seventh (ServeHTTP sampleDecode (POST "/users" (bodyOf alice))) =
         [insertQuery (Ctx (POST "/users" (bodyOf alice))) req]
    /\ seventh _ (sql.ScanID
                    (insertQuery (Ctx (POST "/users" (bodyOf alice))) req)) =
         inl id
    /\ response seventh
         (ServeHTTP sampleDecode (POST "/users" (bodyOf alice))) =
         jsonWrite 201 {[ "message" := JString "User created successfully";
                          "user_id" := JNumber id ]}.
Proof.
  apply (created_only_after_insert sampleDecode
           (POST "/users" (bodyOf alice)) seventh).
  reflexivity.
Defined.



Lemma body_read_by_create_only_witness :
  ServeHTTP sampleDecode
    {| Method := "GET"; Path := "/users/1"; Body := "not json";
       Ctx := WithCancel Background |} =
  ServeHTTP sampleDecode (GET "/users/1").
Proof.
  apply (body_read_by_create_only sampleDecode (GET "/users/1") "not json").
  left. discriminate.
Defined.

Lemma same_integer_same_run_witness :
  handleUsers sampleDecode (GET "/users/7") =
  handleUsers sampleDecode (GET "/users/+007").
Proof.
  apply (same_integer_same_run sampleDecode "7" "+007" "" ""
           (WithCancel Background) 7); reflexivity.
Defined.

Lemma every_int64_is_looked_up_witness :
  issued rowless (handleUsers sampleDecode (GET "/users/-5")) =
    [selectQuery (WithCancel Background) (-5)].
Proof.
  apply (every_int64_is_looked_up sampleDecode (-5) ""
           (WithCancel Background) rowless).
  split; [discriminate | reflexivity].
Defined.

Lemma out_of_range_id_is_bad_request_witness :
  refuses (handleUsers sampleDecode (GET "/users/9223372036854775808")) 400
    {[ "error" := JString "Invalid user_id" ]}.
Proof.
  apply (proj1 (out_of_range_id_is_bad_request sampleDecode 19
                  9223372036854775808 "" (WithCancel Background) eq_refl)).
  discriminate.
Defined.

Lemma looked_up_id_fits_int64_witness : - 2 ^ 63 <= 7 < 2 ^ 63.
Proof.
  apply (looked_up_id_fits_int64 (GET "/users/7") seventh
           (selectQuery (WithCancel Background) 7) 7).
  - left. reflexivity.
  - reflexivity.
Defined.

Lemma dsn_is_ambiguous_witness :
  startup.dsn
    (startup.settings
       (<[ "DB_PASSWORD" := "secret@db" ]> (<[ "DB_HOST" := "internal" ]> ∅))) =
  startup.dsn
    (startup.settings
       (<[ "DB_PASSWORD" := "secret" ]> (<[ "DB_HOST" := "db@internal" ]> ∅))).
Proof.
  apply (dsn_is_ambiguous ∅ "secret" "db" "internal"); discriminate.
Defined.

Lemma In_by_eqb (w : string) (l : list string) :
  existsb (String.eqb w) l = true -> In w l.
Proof.
  intros H. apply existsb_exists in H as (x & Hin & Heq).
  apply String.eqb_eq in Heq. now subst x.
Qed.

Lemma spaced_whitespace_only : whitespace_only (Username spaced).
Proof.
  exists [strings.bytes [9]; strings.bytes [32]; strings.bytes [0xC2; 0xA0]]%N.
  split; [|reflexivity].
  apply List.Forall_cons; [apply In_by_eqb; reflexivity|].
  apply List.Forall_cons; [apply In_by_eqb; reflexivity|].
  apply List.Forall_cons; [apply In_by_eqb; reflexivity|].
  apply List.Forall_nil.
Defined.

Lemma whitespace_fields_are_refused_witness :
  refuses (createUser (fun _ => Some spaced) (POST "/users" "")) 400
    {[ "error" := JString "username and email are required" ]}.
Proof.
  apply (proj1 (whitespace_fields_are_refused (fun _ => Some spaced)
                  (POST "/users" "") spaced eq_refl)).
  left. exact spaced_whitespace_only.
Defined.
